(** * A model of [app.py]: the connection provider and the query handlers

    The Flask application of [app.py] is embedded as functions in a small
    monad that threads the process state (the memoized engine), records
    every call made to the outside world (environment, SQLAlchemy, the
    database) and propagates Python exceptions.  The SQL statements of the
    handlers are given their relational meaning over a database snapshot
    made of three tables. *)

From Stdlib Require Import Ascii String.
From stdpp Require Import base option list sorting gmap strings.

Set Warnings "-register-all".

Local Open Scope string_scope.
Local Open Scope list_scope.

(** ** Python strings *)

(** [s.split(sep)] for a one-character separator: the pieces between the
    occurrences of [sep], in order; the empty string gives one empty piece. *)
Fixpoint str_split (sep : ascii) (s : string) : list string :=
  match s with
  | EmptyString => [EmptyString]
  | String ch rest =>
      if decide (ch = sep) then EmptyString :: str_split sep rest
      else match str_split sep rest with
           | piece :: pieces => String ch piece :: pieces
           | [] => [String ch EmptyString]
           end
  end.

(** [s[n:]] *)
Fixpoint str_from (n : nat) (s : string) : string :=
  match n, s with
  | O, _ => s
  | S _, EmptyString => EmptyString
  | S n', String _ rest => str_from n' rest
  end.

(** [s.startswith(p)] *)
Definition startswith (s p : string) : bool := String.prefix p s.

(** [sep.join(pieces)] *)
Fixpoint str_join (sep : ascii) (pieces : list string) : string :=
  match pieces with
  | [] => EmptyString
  | [piece] => piece
  | piece :: rest => piece +:+ String sep (str_join sep rest)
  end.

(** ** The text accepted by the builtin [float]

    [float_literal] is the reading of a string by the grammar of Python's
    [float(str)], restricted to ASCII: surrounding whitespace is dropped,
    case is ignored, a sign may come first, then [inf], [infinity], [nan]
    or a decimal number with an optional fraction and an optional exponent.
    A decimal reading keeps the digits as an integer and a power of ten,
    [LitDec neg m e] standing for [(-1)^neg * m * 10^e]; the rounding to a
    binary64 value is left to [float_of_literal] below. *)
Inductive float_literal :=
| LitNan
| LitInf (negative : bool)
| LitDec (negative : bool) (digits : N) (exp10 : Z).

Definition is_space (ch : ascii) : bool :=
  let n := nat_of_ascii ch in
  (n =? 32)%nat || ((9 <=? n)%nat && (n <=? 13)%nat).

Definition is_digit (ch : ascii) : bool :=
  let n := nat_of_ascii ch in (48 <=? n)%nat && (n <=? 57)%nat.

Definition lower (ch : ascii) : ascii :=
  let n := nat_of_ascii ch in
  if (65 <=? n)%nat && (n <=? 90)%nat then ascii_of_nat (n + 32) else ch.

Fixpoint lstrip (cs : list ascii) : list ascii :=
  match cs with
  | ch :: rest => if is_space ch then lstrip rest else cs
  | [] => []
  end.

Definition strip (cs : list ascii) : list ascii :=
  reverse (lstrip (reverse (lstrip cs))).

(** The longest run of digits in front of [cs], and what follows it. *)
Fixpoint take_digits (cs : list ascii) : list ascii * list ascii :=
  match cs with
  | ch :: rest =>
      if is_digit ch
      then let '(ds, tl) := take_digits rest in (ch :: ds, tl)
      else ([], cs)
  | [] => ([], [])
  end.

Definition digits_value (ds : list ascii) : N :=
  foldl (λ acc ch, 10 * acc + N.of_nat (nat_of_ascii ch - 48))%N 0%N ds.

Definition take_sign (cs : list ascii) : bool * list ascii :=
  match cs with
  | "-"%char :: rest => (true, rest)
  | "+"%char :: rest => (false, rest)
  | _ => (false, cs)
  end.

(** [floatnumber ::= ([digitpart] "." digitpart | digitpart ["."]) [exponent]] *)
Definition parse_number (neg : bool) (cs : list ascii) : option float_literal :=
  let '(ip, r1) := take_digits cs in
  let '(fp, r2) :=
    match r1 with
    | "."%char :: r => take_digits r
    | _ => ([], r1)
    end in
  let mant := digits_value (ip ++ fp) in
  let scale := (- Z.of_nat (length fp))%Z in
  match ip ++ fp with
  | [] => None
  | _ :: _ =>
      match r2 with
      | [] => Some (LitDec neg mant scale)
      | "e"%char :: r3 =>
          let '(eneg, r4) := take_sign r3 in
          match take_digits r4 with
          | (d :: ds, []) =>
              let e := Z.of_N (digits_value (d :: ds)) in
              Some (LitDec neg mant ((if eneg then - e else e) + scale)%Z)
          | _ => None
          end
      | _ => None
      end
  end.

Definition parse_float_literal (s : string) : option float_literal :=
  let cs := lower <$> strip (list_ascii_of_string s) in
  let '(neg, body) := take_sign cs in
  let word := string_of_list_ascii body in
  if String.eqb word "inf" || String.eqb word "infinity" then Some (LitInf neg)
  else if String.eqb word "nan" then Some LitNan
  else parse_number neg body.

(** ** What the program takes from its platform

    The floating-point values and the builtin [float] belong to the host
    language, the study identifiers and their order to the schema of the
    external database.  [py_float s] is [None] when [float(s)] raises
    [ValueError]; it reads at least the ASCII literals above, to the value
    [float_of_literal] rounds them to.  [sql_float_eq] is the [=] of the
    database on double precision values. *)
Class Platform := {
  float : Type;
  float_of_literal : float_literal → float;
  py_float : string → option float;
  py_float_literal s lit :
    parse_float_literal s = Some lit → py_float s = Some (float_of_literal lit);
  sql_float_eq : float → float → bool;
  study_id : Type;
  study_id_eq_dec :: EqDecision study_id;
  study_id_le : relation study_id;
  study_id_le_dec :: RelDecision study_id_le;
  study_id_le_po :: PartialOrder study_id_le;
  study_id_le_total :: Total study_id_le;
}.

(** ** Exceptions and results

    Every exception the program meets derives from [Exception], which is what
    the handlers' [except Exception] clauses catch. *)
Inductive exn :=
| RuntimeError (msg : string)
| ValueError (msg : string)
| HTTPException (code : nat) (description : string)
| SQLAlchemyError (detail : string).

Inductive outcome (A : Type) :=
| Returns (a : A)
| Raises (e : exn).
Arguments Returns {A} a.
Arguments Raises {A} e.

(** The tables of the schema [ns]. *)
Inductive table := Coordinates | Metadata | AnnotationsTerms.

#[export] Instance table_eq_dec : EqDecision table.
Proof. solve_decision. Defined.

Section Model.
Context `{Platform}.

(** ** Python values handed to [jsonify] *)
Inductive pyobj :=
| PNone
| PBool (b : bool)
| PInt (n : Z)
| PFloat (f : float)
| PStr (s : string)
| PId (i : study_id)
| PList (items : list pyobj)
| PDict (d : gmap string pyobj).

Inductive body :=
| JsonBody (o : pyobj)
| HtmlBody (text : string).

Record response := { status : nat; content : body }.

(** [jsonify(o)] and the view's [(jsonify(o), code)] *)
Definition jsonify (o : pyobj) : response := {| status := 200; content := JsonBody o |}.
Definition with_status (r : response) (code : nat) : response :=
  {| status := code; content := content r |}.

(** ** The database snapshot

    A row of [ns.coordinates] is a study and the point [geom], read through
    [ST_X], [ST_Y] and [ST_Z]; the key columns are not null.  The columns of
    [ns.metadata] beyond [study_id] and [title] are only read by
    [SELECT *]. *)
Record coordinates_row := { c_study_id : study_id; c_x : float; c_y : float; c_z : float }.
Record metadata_row := { m_study_id : study_id; m_title : string; m_more : gmap string pyobj }.
Record annotations_terms_row :=
  { a_study_id : study_id; a_contrast_id : string; a_term : string; a_score : float }.

Record database := {
  coordinates : list coordinates_row;
  metadata : list metadata_row;
  annotations_terms : list annotations_terms_row;
  server_version : string;
}.

(** The result rows of the two dissociation statements. *)
Record study_title := { st_study_id : study_id; st_title : string }.

#[export] Instance study_title_eq_dec : EqDecision study_title.
Proof. solve_decision. Defined.

(** ** SQL statements with their bound parameters *)
Inductive stmt :=
| SetSearchPath
| SelectStudiesByTerm (t : string)
| SelectStudiesByCoordinates (x y z : float)
| SelectDissociateTerms (ta tb : string)
| SelectDissociateLocations (x1 y1 z1 x2 y2 z2 : float)
| SelectVersion
| SelectCount (tbl : table)
| SelectSample (tbl : table).

(** [ST_X(geom) = :x AND ST_Y(geom) = :y AND ST_Z(geom) = :z] *)
Definition at_point (x y z : float) (r : coordinates_row) : bool :=
  sql_float_eq (c_x r) x && sql_float_eq (c_y r) y && sql_float_eq (c_z r) z.

(** [ORDER BY study_id] on rows whose identifier is [key r]. *)
Definition by_study_id {A} (key : A → study_id) : relation A :=
  λ r1 r2, study_id_le (key r1) (key r2).

#[export] Instance by_study_id_dec {A} (key : A → study_id) : RelDecision (by_study_id key).
Proof. intros r1 r2. unfold by_study_id. apply _. Defined.

(** [SELECT DISTINCT study_id FROM ns.annotations_terms WHERE term = :t
    ORDER BY study_id] *)
Definition select_studies_by_term (d : database) (t : string) : list study_id :=
  merge_sort study_id_le
    (remove_dups (a_study_id <$> filter (λ a, a_term a = t) (annotations_terms d))).

(** [SELECT DISTINCT study_id FROM ns.coordinates WHERE ST_X(geom) = :x AND
    ST_Y(geom) = :y AND ST_Z(geom) = :z ORDER BY study_id] *)
Definition select_studies_by_coordinates (d : database) (x y z : float) : list study_id :=
  merge_sort study_id_le
    (remove_dups (c_study_id <$> filter (λ c, at_point x y z c) (coordinates d))).

(** [FROM left JOIN ns.metadata m ON m.study_id = left.study_id], keeping of
    each pair the identifier of the left row and the title. *)
Definition join_metadata {A} (key : A → study_id) (d : database) (rows : list A)
  : list study_title :=
  a ← rows;
  m ← filter (λ m, m_study_id m = key a) (metadata d);
  [ {| st_study_id := key a; st_title := m_title m |} ].

(** [SELECT DISTINCT a.study_id, m.title FROM ns.annotations_terms a JOIN
    ns.metadata m ON m.study_id = a.study_id WHERE a.term = :ta AND NOT EXISTS
    (SELECT 1 FROM ns.annotations_terms b WHERE b.study_id = a.study_id AND
    b.term = :tb) ORDER BY a.study_id]

    [ORDER BY a.study_id] leaves the order of rows of one study (a study with
    several titles) to the database; the sort below keeps them in the order
    of the join, one of the orders the statement allows. *)
Definition select_dissociate_terms (d : database) (ta tb : string) : list study_title :=
  let not_exists_b (a : annotations_terms_row) : bool :=
    bool_decide (filter (λ b, a_study_id b = a_study_id a ∧ a_term b = tb)
                        (annotations_terms d) = []) in
  merge_sort (by_study_id st_study_id)
    (remove_dups
       (join_metadata a_study_id d
          (filter (λ a, a_term a = ta ∧ not_exists_b a) (annotations_terms d)))).

(** The same statement over [ns.coordinates], with the two points, and the
    same choice among rows of one study. *)
Definition select_dissociate_locations (d : database) (x1 y1 z1 x2 y2 z2 : float)
  : list study_title :=
  let not_exists_b (a : coordinates_row) : bool :=
    bool_decide (filter (λ b, c_study_id b = c_study_id a ∧ at_point x2 y2 z2 b)
                        (coordinates d) = []) in
  merge_sort (by_study_id st_study_id)
    (remove_dups
       (join_metadata c_study_id d
          (filter (λ a, at_point x1 y1 z1 a ∧ not_exists_b a) (coordinates d)))).

(** [SELECT COUNT( * ) FROM ns.<tbl>] *)
Definition select_count (d : database) (tbl : table) : Z :=
  match tbl with
  | Coordinates => Z.of_nat (length (coordinates d))
  | Metadata => Z.of_nat (length (metadata d))
  | AnnotationsTerms => Z.of_nat (length (annotations_terms d))
  end.

(** The three sample statements of the diagnostics handler, each row as the
    mapping [dict(r)] builds: [SELECT study_id, ST_X(geom) AS x, ST_Y(geom) AS
    y, ST_Z(geom) AS z FROM ns.coordinates LIMIT 3], [SELECT * FROM
    ns.metadata LIMIT 3] and [SELECT study_id, contrast_id, term, score FROM
    ns.annotations_terms LIMIT 20]. *)
Definition select_sample (d : database) (tbl : table) : list (gmap string pyobj) :=
  match tbl with
  | Coordinates =>
      (λ c, <["study_id" := PId (c_study_id c)]>
              (<["x" := PFloat (c_x c)]>
                 (<["y" := PFloat (c_y c)]> {["z" := PFloat (c_z c)]})))
        <$> take 3 (coordinates d)
  | Metadata =>
      (λ m, <["study_id" := PId (m_study_id m)]>
              (<["title" := PStr (m_title m)]> (m_more m)))
        <$> take 3 (metadata d)
  | AnnotationsTerms =>
      (λ a, <["study_id" := PId (a_study_id a)]>
              (<["contrast_id" := PStr (a_contrast_id a)]>
                 (<["term" := PStr (a_term a)]> {["score" := PFloat (a_score a)]})))
        <$> take 20 (annotations_terms d)
  end.

(** What [conn.execute(...)] hands back for each statement, once fetched with
    [.mappings().all()] or [.scalar()]. *)
Definition rowset (s : stmt) : Type :=
  match s with
  | SetSearchPath => unit
  | SelectStudiesByTerm _ | SelectStudiesByCoordinates _ _ _ => list study_id
  | SelectDissociateTerms _ _ | SelectDissociateLocations _ _ _ _ _ _ => list study_title
  | SelectVersion => string
  | SelectCount _ => Z
  | SelectSample _ => list (gmap string pyobj)
  end.

Definition run_stmt (d : database) (s : stmt) : rowset s :=
  match s with
  | SetSearchPath => tt
  | SelectStudiesByTerm t => select_studies_by_term d t
  | SelectStudiesByCoordinates x y z => select_studies_by_coordinates d x y z
  | SelectDissociateTerms ta tb => select_dissociate_terms d ta tb
  | SelectDissociateLocations x1 y1 z1 x2 y2 z2 =>
      select_dissociate_locations d x1 y1 z1 x2 y2 z2
  | SelectVersion => server_version d
  | SelectCount tbl => select_count d tbl
  | SelectSample tbl => select_sample d tbl
  end.

(** ** The outside world and the process state *)

(** The handle [create_engine] builds; [eng_serial] tells two constructions
    apart, as the identity of the Python object does. *)
Record engine := { eng_url : string; eng_pool_pre_ping : bool; eng_serial : nat }.

(** [eng.dialect.name]: the scheme of the URL up to [+] or [:]. *)
Fixpoint scheme_of (url : string) : string :=
  match url with
  | EmptyString => EmptyString
  | String ch rest =>
      if bool_decide (ch = "+"%char) || bool_decide (ch = ":"%char) then EmptyString
      else String ch (scheme_of rest)
  end.
Definition dialect_name (eng : engine) : string := scheme_of (eng_url eng).

(** The calls that leave the program. *)
Inductive operation :=
| Getenv (name : string)
| CreateEngine (url : string) (pool_pre_ping : bool)
| Connect (eng : engine)
| BeginTx
| Execute (s : stmt)
| Commit
| Rollback
| Close.

(** A call as it is recorded: what was asked, and the exception it ended
    with, if any. *)
Record call := { call_op : operation; call_exn : option exn }.

(** What a request cannot change: the environment variables, the database
    snapshot its statements read, and which calls fail.  [faults] is any
    function of the calls made so far and the call being made. *)
Record ctx := {
  environ : gmap string string;
  db : database;
  faults : list call → operation → option exn;
}.

(** What persists from call to call: the module global [_engine], the
    record of the calls made, and the dict [payload] of the diagnostics
    handler, an object mutated in place whose contents an exception leaves as
    they are. *)
Record world := {
  _engine : option engine;
  trace : list call;
  payload : gmap string pyobj;
}.

Definition M (A : Type) : Type := ctx → world → outcome A * world.

#[export] Instance M_ret : MRet M := λ A a _ w, (Returns a, w).
#[export] Instance M_bind : MBind M := λ A B f m c w,
  match m c w with
  | (Returns a, w') => f a c w'
  | (Raises e, w') => (Raises e, w')
  end.

Definition raise {A} (e : exn) : M A := λ _ w, (Raises e, w).

(** [try: m except Exception: h] *)
Definition try_except {A} (m : M A) (h : exn → M A) : M A := λ c w,
  match m c w with
  | (Returns a, w') => (Returns a, w')
  | (Raises e, w') => h e c w'
  end.

(** [try: m finally: f]: an exception of [f] replaces the outcome of [m]. *)
Definition finally {A} (m : M A) (f : M unit) : M A := λ c w,
  let '(r, w') := m c w in
  match f c w' with
  | (Returns _, w'') => (r, w'')
  | (Raises e, w'') => (Raises e, w'')
  end.

(** [w] with one more call recorded. *)
Definition record (op : operation) (failure : option exn) (w : world) : world :=
  {| _engine := _engine w;
     trace := trace w ++ [ {| call_op := op; call_exn := failure |} ];
     payload := payload w |}.

(** Make a call: it is recorded, and fails when the world has it fail. *)
Definition perform (op : operation) : M unit := λ c w,
  let failure := faults c (trace w) op in
  match failure with
  | Some e => (Raises e, record op failure w)
  | None => (Returns (), record op failure w)
  end.

(** [os.getenv(name)]: recorded, never fails. *)
Definition getenv (name : string) : M (option string) := λ c w,
  (Returns (environ c !! name), record (Getenv name) None w).

Definition get_global_engine : M (option engine) := λ _ w, (Returns (_engine w), w).
Definition set_global_engine (eng : engine) : M unit := λ _ w,
  (Returns (), {| _engine := Some eng; trace := trace w; payload := payload w |}).

Definition get_payload : M (gmap string pyobj) := λ _ w, (Returns (payload w), w).
Definition new_payload (d : gmap string pyobj) : M unit := λ _ w,
  (Returns (), {| _engine := _engine w; trace := trace w; payload := d |}).
(** [payload[key] = v] *)
Definition set_payload (key : string) (v : pyobj) : M unit := λ _ w,
  (Returns (), {| _engine := _engine w; trace := trace w; payload := <[key := v]> (payload w) |}).

(** [create_engine(url, pool_pre_ping=...)] *)
Definition create_engine (url : string) (pool_pre_ping : bool) : M engine := λ c w,
  (perform (CreateEngine url pool_pre_ping);;
   mret {| eng_url := url; eng_pool_pre_ping := pool_pre_ping;
           eng_serial := length (trace w) |}) c w.

(** [conn.execute(text(...), params)] with the rows fetched. *)
Definition execute (s : stmt) : M (rowset s) := λ c w,
  (perform (Execute s);; mret (run_stmt (db c) s)) c w.

(** [with eng.connect() as conn: block]: the connection is closed on the way
    out, exception or not. *)
Definition with_connect {A} (eng : engine) (block : M A) : M A :=
  perform (Connect eng);; finally block (perform Close).

(** [with eng.begin() as conn: block]: a connection and a transaction, which
    is committed when the block ends and rolled back when it raises. *)
Definition with_begin {A} (eng : engine) (block : M A) : M A :=
  with_connect eng
    (perform BeginTx;;
     try_except (a ← block; perform Commit;; mret a)
                (λ e, perform Rollback;; raise e)).

(** [abort(code, description)] *)
Definition abort {A} (code : nat) (description : string) : M A :=
  raise (HTTPException code description).

(** [float(s)] *)
Definition float_call (s : string) : M float :=
  match py_float s with
  | Some f => mret f
  | None => raise (ValueError "could not convert string to float")
  end.

Fixpoint map_M {A B} (f : A → M B) (l : list A) : M (list B) :=
  match l with
  | [] => mret []
  | a :: l' => b ← f a; bs ← map_M f l'; mret (b :: bs)
  end.

(** [x, y, z = map(float, parts)] *)
Definition unpack3_floats (parts : list string) : M (float * float * float) :=
  fs ← map_M float_call parts;
  match fs with
  | [x; y; z] => mret (x, y, z)
  | _ => raise (ValueError "wrong number of values to unpack")
  end.

(** ** The connection provider *)

(** The rewriting of lines 18-19: the old scheme [postgres://] becomes
    [postgresql://]. *)
Definition normalize_url (db_url : string) : string :=
  if startswith db_url "postgres://"
  then "postgresql://" +:+ str_from (String.length "postgres://") db_url
  else db_url.

(** The exception of line 16. *)
Definition missing_db_url : exn :=
  RuntimeError "Missing DB_URL (or DATABASE_URL) environment variable.".

(** [not db_url] *)
Definition falsy (o : option string) : bool :=
  match o with
  | None | Some EmptyString => true
  | Some _ => false
  end.

Definition get_engine : M engine :=
  memo ← get_global_engine;
  match memo with
  | Some eng => mret eng
  | None =>
      db_url ← getenv "DB_URL";
      if falsy db_url
      then raise missing_db_url
      else
        let db_url := normalize_url (default EmptyString db_url) in
        eng ← create_engine db_url true;
        set_global_engine eng;;
        mret eng
  end.

(** ** The handlers *)

Definition coords_message : string := "coords must be 'x_y_z', e.g., 0_-52_26".

(** [jsonify({"error": "db query failed"}), 500] *)
Definition db_query_failed : response :=
  with_status (jsonify (PDict {[ "error" := PStr "db query failed" ]})) 500.

(** [GET /terms/<term>/studies] *)
Definition get_studies_by_term (term : string) : M response :=
  try_except
    (eng ← get_engine;
     rows ← with_connect eng
       (execute SetSearchPath;;
        execute (SelectStudiesByTerm term));
     mret (jsonify (PList (PId <$> rows))))
    (λ _, mret db_query_failed).

(** The second [try] of [get_studies_by_coordinates] (lines 64-76), entered
    with the three parsed values. *)
Definition studies_at (x y z : float) : M response :=
  try_except
    (eng ← get_engine;
     rows ← with_connect eng
       (execute SetSearchPath;;
        execute (SelectStudiesByCoordinates x y z));
     mret (jsonify (PList (PId <$> rows))))
    (λ _, mret db_query_failed).

(** [GET /locations/<coords>/studies] *)
Definition get_studies_by_coordinates (coords : string) : M response :=
  '(x, y, z) ← try_except
    (let parts := str_split "_" coords in
     (if bool_decide (length parts ≠ 3) then abort 400 coords_message else mret ());;
     unpack3_floats parts)
    (λ _, abort 400 coords_message);
  studies_at x y z.

Definition study_title_obj (r : study_title) : pyobj :=
  PDict (<["study_id" := PId (st_study_id r)]> {[ "title" := PStr (st_title r) ]}).

(** [GET /dissociate/terms/<term_a>/<term_b>] *)
Definition dissociate_by_terms (term_a term_b : string) : M response :=
  try_except
    (eng ← get_engine;
     rows ← with_connect eng
       (execute SetSearchPath;;
        execute (SelectDissociateTerms term_a term_b));
     mret (jsonify (PList (study_title_obj <$> rows))))
    (λ _, mret db_query_failed).

Definition coord_study_title_obj (coord : pyobj) (r : study_title) : pyobj :=
  PDict (<["coord" := coord]>
           (<["study_id" := PId (st_study_id r)]> {[ "title" := PStr (st_title r) ]})).

(** The second [try] of [dissociate_by_locations] (lines 115-140). *)
Definition dissociate_at (x1 y1 z1 x2 y2 z2 : float) : M response :=
  try_except
    (eng ← get_engine;
     rows ← with_connect eng
       (execute SetSearchPath;;
        execute (SelectDissociateLocations x1 y1 z1 x2 y2 z2));
     let coord := PList [PFloat x1; PFloat y1; PFloat z1] in
     mret (jsonify (PList (coord_study_title_obj coord <$> rows))))
    (λ _, mret db_query_failed).

(** [GET /dissociate/locations/<c1>/<c2>] *)
Definition dissociate_by_locations (c1 c2 : string) : M response :=
  '(x1, y1, z1, (x2, y2, z2)) ← try_except
    (let parts1 := str_split "_" c1 in
     let parts2 := str_split "_" c2 in
     (if bool_decide (length parts1 ≠ 3) || bool_decide (length parts2 ≠ 3)
      then abort 400 coords_message else mret ());;
     p1 ← unpack3_floats parts1;
     p2 ← unpack3_floats parts2;
     mret (p1, p2))
    (λ _, abort 400 coords_message);
  dissociate_at x1 y1 z1 x2 y2 z2.

Definition sample_key (tbl : table) : string :=
  match tbl with
  | Coordinates => "coordinates_sample"
  | Metadata => "metadata_sample"
  | AnnotationsTerms => "annotations_terms_sample"
  end.

Definition count_key (tbl : table) : string :=
  match tbl with
  | Coordinates => "coordinates_count"
  | Metadata => "metadata_count"
  | AnnotationsTerms => "annotations_terms_count"
  end.

(** One of the three guarded sample blocks of [test_db]. *)
Definition sample_block (tbl : table) : M unit :=
  try_except
    (rows ← execute (SelectSample tbl);
     set_payload (sample_key tbl) (PList (PDict <$> rows)))
    (λ _, set_payload (sample_key tbl) (PList [])).

(** [GET /test_db] *)
Definition test_db : M response :=
  eng ← get_engine;
  new_payload (<["ok" := PBool false]> {[ "dialect" := PStr (dialect_name eng) ]});;
  try_except
    (with_begin eng
       (execute SetSearchPath;;
        version ← execute SelectVersion;
        set_payload "version" (PStr version);;
        n ← execute (SelectCount Coordinates);
        set_payload (count_key Coordinates) (PInt n);;
        n ← execute (SelectCount Metadata);
        set_payload (count_key Metadata) (PInt n);;
        n ← execute (SelectCount AnnotationsTerms);
        set_payload (count_key AnnotationsTerms) (PInt n);;
        sample_block Coordinates;;
        sample_block Metadata;;
        sample_block AnnotationsTerms);;
     set_payload "ok" (PBool true);;
     p ← get_payload;
     mret (with_status (jsonify (PDict p)) 200))
    (λ _,
     set_payload "error" (PStr "db query failed");;
     p ← get_payload;
     mret (with_status (jsonify (PDict p)) 500)).

(** ** Routing and the framework's treatment of exceptions *)

Inductive query :=
| TermsStudies (term : string)
| LocationsStudies (coords : string)
| DissociateTerms (term_a term_b : string)
| DissociateLocations (c1 c2 : string).

Inductive request :=
| Query (q : query)
| TestDb.

(** The four query routes. *)
Definition query_handler (q : query) : M response :=
  match q with
  | TermsStudies term => get_studies_by_term term
  | LocationsStudies coords => get_studies_by_coordinates coords
  | DissociateTerms term_a term_b => dissociate_by_terms term_a term_b
  | DissociateLocations c1 c2 => dissociate_by_locations c1 c2
  end.

Definition view (r : request) : M response :=
  match r with
  | Query q => query_handler q
  | TestDb => test_db
  end.

(** What Flask sends for the outcome of a view: an [HTTPException] is
    rendered with its own code and description, any other exception as the
    framework's 500 page. *)
Definition render (o : outcome response) : response :=
  match o with
  | Returns r => r
  | Raises (HTTPException code description) =>
      {| status := code; content := HtmlBody description |}
  | Raises _ => {| status := 500; content := HtmlBody "Internal Server Error" |}
  end.

(** Serving requests one after the other in one process. *)
Fixpoint serve (c : ctx) (w : world) (rs : list request) : list response * world :=
  match rs with
  | [] => ([], w)
  | r :: rs' =>
      let '(o, w') := view r c w in
      let '(outs, w'') := serve c w' rs' in
      (render o :: outs, w'')
  end.

(** The shape the four query handlers share once their parameters are known:
    statement [s] on a connection of the provider's engine, the rows shaped
    by [shape], and the generic error for any exception. *)
Definition query_view (s : stmt) (shape : rowset s → pyobj) : M response :=
  try_except
    (eng ← get_engine;
     rows ← with_connect eng (execute SetSearchPath;; execute s);
     mret (jsonify (shape rows)))
    (λ _, mret db_query_failed).

(** The state of a process that has served nothing yet. *)
Definition fresh : world := {| _engine := None; trace := []; payload := ∅ |}.

(** ** Vocabulary of the statements *)

(** A coordinate string as the specification describes it: exactly three
    segments between underscores, each of them read by [float]. *)
Definition parse_coords (s : string) : option (float * float * float) :=
  match str_split "_" s with
  | [a; b; c] =>
      x ← py_float a; y ← py_float b; z ← py_float c; Some (x, y, z)
  | _ => None
  end.

(** [ch in s] *)
Fixpoint str_contains (ch : ascii) (s : string) : bool :=
  match s with
  | EmptyString => false
  | String ch' rest => bool_decide (ch' = ch) || str_contains ch rest
  end.

(** The values of [float("nan")], [float("inf")], [float("1e5")] and
    [float(" 1.5 ")]. *)
Definition float_nan : float := float_of_literal LitNan.
Definition float_inf : float := float_of_literal (LitInf false).
Definition float_1e5 : float := float_of_literal (LitDec false 1 5).
Definition float_1_5 : float := float_of_literal (LitDec false 15 (-1)).

(** The path segment made of three components. *)
Definition underscored (a b c : string) : string :=
  a +:+ "_" +:+ b +:+ "_" +:+ c.

(** The complete answer to a query on the snapshot [d], when its parameters
    are well formed. *)
Definition full_answer (d : database) (q : query) : option response :=
  match q with
  | TermsStudies term =>
      Some (jsonify (PList (PId <$> select_studies_by_term d term)))
  | LocationsStudies coords =>
      '(x, y, z) ← parse_coords coords;
      Some (jsonify (PList (PId <$> select_studies_by_coordinates d x y z)))
  | DissociateTerms term_a term_b =>
      Some (jsonify (PList (study_title_obj <$> select_dissociate_terms d term_a term_b)))
  | DissociateLocations c1 c2 =>
      '(x1, y1, z1) ← parse_coords c1;
      '(x2, y2, z2) ← parse_coords c2;
      Some (jsonify (PList (coord_study_title_obj (PList [PFloat x1; PFloat y1; PFloat z1])
                              <$> select_dissociate_locations d x1 y1 z1 x2 y2 z2)))
  end.

(** The parameters of a query are well formed: its coordinate strings, if
    any, are read by [parse_coords]. *)
Definition well_formed (q : query) : bool :=
  match q with
  | TermsStudies _ | DissociateTerms _ _ => true
  | LocationsStudies coords => bool_decide (is_Some (parse_coords coords))
  | DissociateLocations c1 c2 =>
      bool_decide (is_Some (parse_coords c1)) && bool_decide (is_Some (parse_coords c2))
  end.

(** The value under [key] in a JSON object body. *)
Definition field (key : string) (r : response) : option pyobj :=
  match content r with
  | JsonBody (PDict d) => d !! key
  | _ => None
  end.

(** The 400 raised by [abort] on malformed coordinates. *)
Definition bad_coords : exn := HTTPException 400 coords_message.

(** The calls recorded in [w'] since [w]. *)
Definition calls_since (w w' : world) : list call := drop (length (trace w)) (trace w').

Definition failed (k : call) : bool :=
  match call_exn k with Some _ => true | None => false end.

Definition is_sample (tbl : table) (op : operation) : bool :=
  match op with
  | Execute (SelectSample tbl') => bool_decide (tbl' = tbl)
  | _ => false
  end.

Definition is_any_sample (op : operation) : bool :=
  match op with
  | Execute (SelectSample _) => true
  | _ => false
  end.

Definition is_create_engine (op : operation) : bool :=
  match op with
  | CreateEngine _ _ => true
  | _ => false
  end.

Definition is_getenv (op : operation) : bool :=
  match op with
  | Getenv _ => true
  | _ => false
  end.

(** Some call of [ks] failed. *)
Definition any_failed (ks : list call) : bool := existsb failed ks.
(** The sample statement on [tbl] failed. *)
Definition sample_failed (tbl : table) (ks : list call) : bool :=
  existsb (λ k, failed k && is_sample tbl (call_op k)) ks.
(** A call other than the three sample statements failed. *)
Definition core_failed (ks : list call) : bool :=
  existsb (λ k, failed k && negb (is_any_sample (call_op k))) ks.

(** The constructions of the handle attempted so far, in order. *)
Definition constructions (w : world) : list call :=
  filter (λ k, is_create_engine (call_op k)) (trace w).

(** The constructions of a process and its global agree: while [_engine] is
    unset every construction attempted has failed, and once it is set the
    last construction attempted is the one that built it, the only one that
    succeeded. *)
Definition constructed_once (w : world) : Prop :=
  match _engine w with
  | None => Forall (λ k, failed k = true) (constructions w)
  | Some eng =>
      ∃ attempts,
        constructions w =
          attempts ++ [ {| call_op := CreateEngine (eng_url eng) true; call_exn := None |} ] ∧
        Forall (λ k, failed k = true) attempts
  end.

(** No environment is read and no handle constructed in [ks]. *)
Definition no_configuration_use (ks : list call) : Prop :=
  Forall (λ k, is_getenv (call_op k) = false ∧ is_create_engine (call_op k) = false) ks.

(** Since [w0] the global has held [eng] and neither the environment was
    read nor a handle constructed. *)
Definition memoized (eng : engine) (w0 w : world) : Prop :=
  _engine w = Some eng ∧
  ∃ ks, trace w = trace w0 ++ ks ∧ no_configuration_use ks.

(** The calls of [c] never fail. *)
Definition reliable (c : ctx) : Prop := ∀ history op, faults c history op = None.

(** A handle is at hand: already memoized, or its URL is configured. *)
Definition engine_available (c : ctx) (w : world) : Prop :=
  is_Some (_engine w) ∨ falsy (environ c !! "DB_URL") = false.

(** ** A program logic for the monad

    [post m c w Q] says that [Q] holds of the outcome and of the final state
    of [m] run from [w]; [preserves c I m] that [m] keeps the invariant [I]
    of the state. *)
Definition post {A} (m : M A) (c : ctx) (w : world)
    (Q : outcome A → world → Prop) : Prop :=
  Q (m c w).1 (m c w).2.

Definition preserves {A} (c : ctx) (I : world → Prop) (m : M A) : Prop :=
  ∀ w, I w → I (m c w).2.

(** ** Vocabulary of the further properties *)

(** [o] is the JSON object of the row [r]: the study under [study_id], the
    title under [title], and no other key. *)
Definition study_title_json (r : study_title) (o : pyobj) : Prop :=
  ∃ d, o = PDict d ∧
    d !! "study_id" = Some (PId (st_study_id r)) ∧
    d !! "title" = Some (PStr (st_title r)) ∧
    ∀ key, key ≠ "study_id" → key ≠ "title" → d !! key = None.

(** The same with [coord] under the key [coord]. *)
Definition coord_study_title_json (coord : pyobj) (r : study_title) (o : pyobj) : Prop :=
  ∃ d, o = PDict d ∧
    d !! "coord" = Some coord ∧
    d !! "study_id" = Some (PId (st_study_id r)) ∧
    d !! "title" = Some (PStr (st_title r)) ∧
    ∀ key, key ≠ "coord" → key ≠ "study_id" → key ≠ "title" → d !! key = None.

(** Study [s] has an annotation row with term [t]. *)
Definition annotated (d : database) (s : study_id) (t : string) : Prop :=
  ∃ a, a ∈ annotations_terms d ∧ a_study_id a = s ∧ a_term a = t.

(** Study [s] has a point equal to [(x, y, z)]. *)
Definition located (d : database) (s : study_id) (x y z : float) : Prop :=
  ∃ r, r ∈ coordinates d ∧ c_study_id r = s ∧ at_point x y z r = true.

(** The metadata relation gives study [s] the title [title]. *)
Definition titled (d : database) (s : study_id) (title : string) : Prop :=
  ∃ m, m ∈ metadata d ∧ m_study_id m = s ∧ m_title m = title.

(** The life of the connection of one request: not yet asked for, open,
    open with the search path set, and closed (or refused). *)
Inductive conn_state := Fresh | Opened | Selected | Closed.

(** The state after one more call, [None] when the call is out of order:
    the environment and [create_engine] come before the connection, which is
    asked for once; the search path is set on an open connection and a
    [SELECT] runs only after it was set; [Close] ends an open connection. *)
Definition conn_step (st : conn_state) (k : call) : option conn_state :=
  match call_op k, st with
  | (Getenv _ | CreateEngine _ _), Fresh => Some Fresh
  | Connect _, Fresh => Some (if failed k then Closed else Opened)
  | Execute SetSearchPath, (Opened | Selected) => Some (if failed k then st else Selected)
  | Execute _, Selected => Some Selected
  | (BeginTx | Commit | Rollback), (Opened | Selected) => Some st
  | Close, (Opened | Selected) => Some Closed
  | _, _ => None
  end.

(** The calls [ks] are in order from [st] and leave no connection open. *)
Fixpoint follows_protocol (st : conn_state) (ks : list call) : bool :=
  match ks with
  | [] => match st with Fresh | Closed => true | _ => false end
  | k :: ks' =>
      match conn_step st k with
      | Some st' => follows_protocol st' ks'
      | None => false
      end
  end.

(** The [LIMIT] of each sample statement. *)
Definition sample_limit (tbl : table) : nat :=
  match tbl with
  | Coordinates | Metadata => 3
  | AnnotationsTerms => 20
  end.

(** The statements of the calls [ks], in the order they were sent. *)
Definition executed (ks : list call) : list stmt :=
  omap (λ k, match call_op k with Execute s => Some s | _ => None end) ks.

(** The statements of the diagnostics handler, in source order. *)
Definition test_db_script : list stmt :=
  [ SetSearchPath; SelectVersion;
    SelectCount Coordinates; SelectCount Metadata; SelectCount AnnotationsTerms;
    SelectSample Coordinates; SelectSample Metadata; SelectSample AnnotationsTerms ].

(** The statements a request is written to send, with its parameters
    bound. *)
Definition script (r : request) : list stmt :=
  match r with
  | Query (TermsStudies term) => [SetSearchPath; SelectStudiesByTerm term]
  | Query (LocationsStudies coords) =>
      match parse_coords coords with
      | Some (x, y, z) => [SetSearchPath; SelectStudiesByCoordinates x y z]
      | None => []
      end
  | Query (DissociateTerms term_a term_b) =>
      [SetSearchPath; SelectDissociateTerms term_a term_b]
  | Query (DissociateLocations c1 c2) =>
      match parse_coords c1, parse_coords c2 with
      | Some (x1, y1, z1), Some (x2, y2, z2) =>
          [SetSearchPath; SelectDissociateLocations x1 y1 z1 x2 y2 z2]
      | _, _ => []
      end
  | TestDb => test_db_script
  end.

End Model.

(** ** A platform to run the model on

    Floats are the decimal readings themselves, compared by value (with
    [nan = nan], as the database has it) instead of being rounded to
    binary64; study identifiers are natural numbers. *)
Definition literal_eqb (a b : float_literal) : bool :=
  match a, b with
  | LitNan, LitNan => true
  | LitInf s, LitInf t => bool_decide (s = t)
  | LitDec s m e, LitDec t n f =>
      let k := (e `min` f)%Z in
      let va := (Z.of_N m * 10 ^ (e - k))%Z in
      let vb := (Z.of_N n * 10 ^ (f - k))%Z in
      bool_decide (va = vb) && (bool_decide (s = t) || bool_decide (va = 0%Z))
  | _, _ => false
  end.

Definition exact_platform : Platform := {|
  float := float_literal;
  float_of_literal := id;
  py_float := parse_float_literal;
  py_float_literal := λ s lit Hs, Hs;
  sql_float_eq := literal_eqb;
  study_id := N;
  study_id_le := N.le;
|}.

Module Sample.
#[local] Existing Instance exact_platform.

Definition dec (neg : bool) (m : N) : float := LitDec neg m 0.

Definition data : database := {|
  coordinates := [
    {| c_study_id := 1002%N; c_x := dec false 0; c_y := dec true 52; c_z := dec false 26 |};
    {| c_study_id := 1001%N; c_x := dec true 0; c_y := dec true 52; c_z := dec false 26 |};
    {| c_study_id := 1002%N; c_x := dec false 1; c_y := dec false 2; c_z := dec false 3 |};
    {| c_study_id := 1003%N; c_x := dec false 1; c_y := dec false 2; c_z := dec false 3 |} ];
  metadata := [
    {| m_study_id := 1001%N; m_title := "Pain"; m_more := ∅ |};
    {| m_study_id := 1002%N; m_title := "Pain and touch"; m_more := ∅ |};
    {| m_study_id := 1003%N; m_title := "Touch"; m_more := ∅ |} ];
  annotations_terms := [
    {| a_study_id := 1002%N; a_contrast_id := "1"; a_term := "pain"; a_score := dec false 1 |};
    {| a_study_id := 1001%N; a_contrast_id := "1"; a_term := "pain"; a_score := dec false 2 |};
    {| a_study_id := 1002%N; a_contrast_id := "1"; a_term := "touch"; a_score := dec false 3 |};
    {| a_study_id := 1001%N; a_contrast_id := "2"; a_term := "pain"; a_score := dec false 4 |};
    {| a_study_id := 1003%N; a_contrast_id := "1"; a_term := "touch"; a_score := dec false 5 |} ];
  server_version := "PostgreSQL 16";
|}.

Definition no_faults : list call → operation → option exn := λ _ _, None.

(** Every call of the given kind fails. *)
Definition fault_on (bad : operation → bool) : list call → operation → option exn :=
  λ _ op, if bad op then Some (SQLAlchemyError "connection refused") else None.

Definition configured (f : list call → operation → option exn) : ctx :=
  {| environ := {[ "DB_URL" := "postgres://user@host/ns" ]}; db := data; faults := f |}.

(** Every call fails except the reading of the environment and the
    construction of the handle: the database cannot be reached. *)
Definition unreachable : ctx :=
  configured (fault_on (λ op, negb (is_getenv op || is_create_engine op))).

(** The handle cannot be constructed (say, the driver is not installed). *)
Definition no_driver : ctx := configured (fault_on is_create_engine).

(** Only the three sample statements fail. *)
Definition samples_fail : ctx := configured (fault_on is_any_sample).

(** Only the count on the metadata table fails. *)
Definition count_fails : ctx :=
  configured (fault_on (λ op, match op with
                              | Execute (SelectCount Metadata) => true
                              | _ => false
                              end)).

Definition unconfigured : ctx :=
  {| environ := ∅; db := data; faults := no_faults |}.

(** The handle the provider builds on its first call in [configured f], and
    the state that call leaves behind. *)
Definition first_engine : engine :=
  {| eng_url := "postgresql://user@host/ns"; eng_pool_pre_ping := true; eng_serial := 1 |}.

Definition first_world : world :=
  {| _engine := Some first_engine;
     trace := [ {| call_op := Getenv "DB_URL"; call_exn := None |};
                {| call_op := CreateEngine "postgresql://user@host/ns" true;
                   call_exn := None |} ];
     payload := ∅ |}.

End Sample.

(** * Proofs *)

Section Proofs.
Context `{Platform}.

(** ** Running the monad *)

Ltac unfold_M :=
  cbv beta iota zeta delta
    [query_view try_except get_engine mbind M_bind mret M_ret get_global_engine getenv
     create_engine set_global_engine with_connect with_begin finally execute raise
     perform abort].

Ltac case_faults :=
  repeat match goal with
  | |- context [match faults ?c ?h ?o with _ => _ end] =>
      let E := fresh "Hfault" in destruct (faults c h o) eqn:E
  end.

Lemma calls_since_app w w' ks : trace w' = trace w ++ ks → calls_since w w' = ks.
Proof. unfold calls_since. intros ->. by rewrite drop_app_length. Qed.

Lemma calls_since_same w w' : trace w' = trace w → calls_since w w' = [].
Proof. unfold calls_since. intros ->. by rewrite drop_all. Qed.

Ltac calls :=
  first
    [ erewrite calls_since_same by reflexivity
    | erewrite calls_since_app by (cbn; rewrite <- ?app_assoc; reflexivity) ].

(** ** The SQL statements *)

Lemma sorted_distinct (l : list study_id) :
  StronglySorted study_id_le (merge_sort study_id_le (remove_dups l)) ∧
  NoDup (merge_sort study_id_le (remove_dups l)).
Proof.
  split.
  - apply (StronglySorted_merge_sort _).
  - rewrite merge_sort_Permutation. apply NoDup_remove_dups.
Qed.

Lemma filter_nil_none {A} (P : A → Prop) `{∀ x, Decision (P x)} (l : list A) :
  filter P l = [] ↔ ∀ x, x ∈ l → ¬ P x.
Proof.
  split.
  - intros Hnil x Hx HP.
    assert (x ∈ filter P l) as Hin by (apply list_elem_of_filter; done).
    rewrite Hnil in Hin. by apply not_elem_of_nil in Hin.
  - intros Hnone. destruct (filter P l) as [|x l'] eqn:Hf; [done|].
    assert (x ∈ filter P l) as Hin by (rewrite Hf; left).
    apply list_elem_of_filter in Hin as [HP Hx]. by destruct (Hnone x Hx).
Qed.

Lemma elem_of_join_metadata {A} (key : A → study_id) d (rows : list A) r :
  r ∈ join_metadata key d rows ↔
  ∃ a m, a ∈ rows ∧ m ∈ metadata d ∧ m_study_id m = key a ∧
         r = {| st_study_id := key a; st_title := m_title m |}.
Proof.
  unfold join_metadata. rewrite list_elem_of_bind. split.
  - intros (a & Hr & Ha). apply list_elem_of_bind in Hr as (m & Hr & Hm).
    apply list_elem_of_filter in Hm as [Hk Hm].
    apply list_elem_of_singleton in Hr. eauto 10.
  - intros (a & m & Ha & Hm & Hk & ->). exists a. split; [|done].
    apply list_elem_of_bind. exists m. split; [by apply list_elem_of_singleton|].
    by apply list_elem_of_filter.
Qed.

Lemma elem_of_select_dissociate_terms d ta tb r :
  r ∈ select_dissociate_terms d ta tb ↔
  (∃ a, a ∈ annotations_terms d ∧ a_study_id a = st_study_id r ∧ a_term a = ta) ∧
  (∀ b, b ∈ annotations_terms d → a_study_id b = st_study_id r → a_term b ≠ tb) ∧
  (∃ m, m ∈ metadata d ∧ m_study_id m = st_study_id r ∧ m_title m = st_title r).
Proof.
  unfold select_dissociate_terms.
  rewrite merge_sort_Permutation, elem_of_remove_dups, elem_of_join_metadata.
  split.
  - intros (a & m & Ha & Hm & Hk & ->). simpl.
    apply list_elem_of_filter in Ha as [[Hta Hnb] Ha].
    apply bool_decide_unpack in Hnb.
    pose proof (proj1 (filter_nil_none _ _) Hnb) as Hnone.
    split; [eauto|]. split; [|eauto].
    intros b Hb Hid Htb. by apply (Hnone b Hb).
  - intros ((a & Ha & Hid & Hta) & Hnb & (m & Hm & Hmid & Htitle)).
    exists a, m. split; [|split; [done|split; [congruence|]]].
    + apply list_elem_of_filter. split; [|done]. split; [done|].
      apply bool_decide_pack. apply (proj2 (filter_nil_none _ _)).
      intros b Hb [Hbid Htb]. apply (Hnb b Hb); congruence.
    + destruct r; simpl in *; congruence.
Qed.

(** ** Coordinate strings *)

Lemma unpack3_floats_eq a b c0 c w :
  unpack3_floats [a; b; c0] c w =
  match py_float a, py_float b, py_float c0 with
  | Some x, Some y, Some z => (Returns (x, y, z), w)
  | _, _, _ => (Raises (ValueError "could not convert string to float"), w)
  end.
Proof.
  unfold unpack3_floats, map_M, float_call, mbind, M_bind, mret, M_ret, raise.
  destruct (py_float a), (py_float b), (py_float c0); reflexivity.
Qed.

Lemma str_split_free sep s : str_contains sep s = false → str_split sep s = [s].
Proof.
  induction s as [|ch s IH]; simpl; [done|].
  intros [Hch Hs]%orb_false_elim. apply bool_decide_eq_false in Hch.
  rewrite decide_False by done. by rewrite IH.
Qed.

Lemma str_split_app sep a b :
  str_contains sep a = false →
  str_split sep (a +:+ String sep b) = a :: str_split sep b.
Proof.
  induction a as [|ch a IH]; simpl.
  - intros _. by rewrite decide_True.
  - intros [Hch Ha]%orb_false_elim. apply bool_decide_eq_false in Hch.
    rewrite decide_False by done. by rewrite IH.
Qed.

Lemma str_split_underscored a b c0 :
  str_contains "_" a = false → str_contains "_" b = false →
  str_contains "_" c0 = false →
  str_split "_" (underscored a b c0) = [a; b; c0].
Proof.
  intros Ha Hb Hc. unfold underscored.
  change ("_" +:+ b +:+ "_" +:+ c0) with (String "_" (b +:+ String "_" c0)).
  rewrite (str_split_app _ a) by done. rewrite (str_split_app _ b) by done.
  by rewrite str_split_free.
Qed.

Lemma parse_coords_underscored a b c0 x y z :
  str_contains "_" a = false → str_contains "_" b = false →
  str_contains "_" c0 = false →
  py_float a = Some x → py_float b = Some y → py_float c0 = Some z →
  parse_coords (underscored a b c0) = Some (x, y, z).
Proof.
  intros Ha Hb Hc Hx Hy Hz. unfold parse_coords.
  rewrite str_split_underscored by done. by rewrite Hx, Hy, Hz.
Qed.

Lemma get_studies_by_coordinates_eq coords c w :
  get_studies_by_coordinates coords c w =
  match parse_coords coords with
  | Some (x, y, z) => studies_at x y z c w
  | None => (Raises bad_coords, w)
  end.
Proof.
  unfold get_studies_by_coordinates, parse_coords.
  destruct (str_split "_" coords) as [|a [|b [|c0 [|d l]]]]; try reflexivity.
  unfold mbind at 1. unfold M_bind, try_except.
  unfold mbind at 1. unfold M_bind.
  change (bool_decide (length [a; b; c0] ≠ 3)) with false. cbv iota.
  unfold mret at 1. unfold M_ret. rewrite unpack3_floats_eq.
  destruct (py_float a), (py_float b), (py_float c0); reflexivity.
Qed.

Lemma dissociate_by_locations_eq c1 c2 c w :
  dissociate_by_locations c1 c2 c w =
  match parse_coords c1, parse_coords c2 with
  | Some (x1, y1, z1), Some (x2, y2, z2) => dissociate_at x1 y1 z1 x2 y2 z2 c w
  | _, _ => (Raises bad_coords, w)
  end.
Proof.
  unfold dissociate_by_locations, parse_coords.
  unfold mbind at 1. unfold M_bind, try_except.
  unfold mbind at 1. unfold M_bind.
  destruct (str_split "_" c1) as [|a1 [|b1 [|d1 [|e1 l1]]]];
    destruct (str_split "_" c2) as [|a2 [|b2 [|d2 [|e2 l2]]]].
  all: match goal with
       | |- context [bool_decide (length ?l ≠ 3) || bool_decide (length ?k ≠ 3)] =>
           let b := eval vm_compute in (bool_decide (length l ≠ 3) || bool_decide (length k ≠ 3)) in
           change (bool_decide (length l ≠ 3) || bool_decide (length k ≠ 3)) with b
       end; cbv iota.
  all: try reflexivity.
  all: try (simpl; repeat (destruct (py_float _); simpl); reflexivity).
  unfold mret at 1. unfold M_ret.
  unfold mbind at 1. unfold M_bind. rewrite unpack3_floats_eq.
  destruct (py_float a1), (py_float b1), (py_float d1); try reflexivity.
  all: simpl.
  all: unfold mbind at 1; unfold M_bind; rewrite unpack3_floats_eq.
  all: destruct (py_float a2), (py_float b2), (py_float d2); reflexivity.
Qed.

(** ** The connection provider *)

Lemma get_engine_memo c w eng :
  _engine w = Some eng → get_engine c w = (Returns eng, w).
Proof. intros Hm. unfold_M. by rewrite Hm. Qed.

Lemma get_engine_unconfigured c w :
  _engine w = None → falsy (environ c !! "DB_URL") = true →
  get_engine c w =
  (Raises (RuntimeError "Missing DB_URL (or DATABASE_URL) environment variable."),
   record (Getenv "DB_URL") None w).
Proof. intros Hm Hf. unfold_M. by rewrite Hm, Hf. Qed.

Lemma get_engine_construct c w url :
  _engine w = None → environ c !! "DB_URL" = Some url → url ≠ "" →
  let w1 := record (Getenv "DB_URL") None w in
  let op := CreateEngine (normalize_url url) true in
  get_engine c w =
  match faults c (trace w1) op with
  | Some e => (Raises e, record op (Some e) w1)
  | None =>
      let eng := {| eng_url := normalize_url url; eng_pool_pre_ping := true;
                    eng_serial := length (trace w1) |} in
      (Returns eng, {| _engine := Some eng; trace := trace (record op None w1);
                       payload := payload w |})
  end.
Proof.
  intros Hm Hurl Hne. unfold_M. rewrite Hm, Hurl.
  destruct url; [done|]. simpl. by case_faults.
Qed.

Lemma get_engine_returns c w eng w' :
  get_engine c w = (Returns eng, w') → _engine w' = Some eng.
Proof.
  unfold_M. destruct (_engine w) eqn:Hm; [by intros [= <- <-]|].
  destruct (falsy _); [done|]. case_faults; [done|]. by intros [= <- <-].
Qed.

(** ** The query handlers *)

Lemma query_view_cases s shape c w :
  ∃ resp w', query_view s shape c w = (Returns resp, w') ∧
    (resp = db_query_failed ∨ resp = jsonify (shape (run_stmt (db c) s))) ∧
    (any_failed (calls_since w w') = true → resp = db_query_failed).
Proof.
  unfold_M. destruct (_engine w) eqn:Hm; [|destruct (falsy _)].
  all: case_faults; do 2 eexists; (split; [reflexivity|]); (split; [auto|]).
  all: try (intros _; reflexivity).
  all: calls; cbn; done.
Qed.

Lemma query_view_unconfigured s shape c w :
  _engine w = None → falsy (environ c !! "DB_URL") = true →
  query_view s shape c w = (Returns db_query_failed, record (Getenv "DB_URL") None w).
Proof. intros Hm Hf. unfold_M. by rewrite Hm, Hf. Qed.

Lemma query_view_reaches s shape c w :
  reliable c → engine_available c w →
  ∃ w', query_view s shape c w = (Returns (jsonify (shape (run_stmt (db c) s))), w') ∧
        {| call_op := Execute s; call_exn := None |} ∈ calls_since w w'.
Proof.
  intros Hok Havail. unfold_M.
  destruct (_engine w) as [eng|] eqn:Hm.
  - repeat (rewrite Hok; simpl).
    eexists. split; [reflexivity|]. calls. set_solver.
  - assert (falsy (environ c !! "DB_URL") = false) as ->.
    { destruct Havail as [[eng Heng]|Hf]; [congruence|done]. }
    repeat (rewrite Hok; simpl).
    eexists. split; [reflexivity|]. calls. set_solver.
Qed.

Lemma get_studies_by_term_view term :
  get_studies_by_term term = query_view (SelectStudiesByTerm term) (λ rows, PList (PId <$> rows)).
Proof. reflexivity. Qed.

Lemma studies_at_view x y z :
  studies_at x y z =
  query_view (SelectStudiesByCoordinates x y z) (λ rows, PList (PId <$> rows)).
Proof. reflexivity. Qed.

Lemma dissociate_by_terms_view ta tb :
  dissociate_by_terms ta tb =
  query_view (SelectDissociateTerms ta tb) (λ rows, PList (study_title_obj <$> rows)).
Proof. reflexivity. Qed.

Lemma dissociate_at_view x1 y1 z1 x2 y2 z2 :
  dissociate_at x1 y1 z1 x2 y2 z2 =
  query_view (SelectDissociateLocations x1 y1 z1 x2 y2 z2)
    (λ rows, PList (coord_study_title_obj (PList [PFloat x1; PFloat y1; PFloat z1]) <$> rows)).
Proof. reflexivity. Qed.

(** ** The diagnostics handler *)

Lemma get_engine_calls c w eng w1 :
  get_engine c w = (Returns eng, w1) →
  ∃ ks, trace w1 = trace w ++ ks ∧ any_failed ks = false.
Proof.
  unfold_M. destruct (_engine w) eqn:Hm.
  - intros [= <- <-]. exists []. by rewrite app_nil_r.
  - destruct (falsy _); [done|]. case_faults; [done|]. intros [= <- <-].
    eexists. split; [cbn; rewrite <- ?app_assoc; reflexivity|done].
Qed.

Lemma test_db_raises c w e w1 :
  get_engine c w = (Raises e, w1) → test_db c w = (Raises e, w1).
Proof. intros Hget. unfold test_db. unfold mbind at 1. unfold M_bind. by rewrite Hget. Qed.

(** A small program logic: [post m c w Q] says that [Q] holds of the
    outcome and final state of [m] run from [w]. *)

Lemma post_ret {A} (a : A) c w Q : Q (Returns a) w → post (mret a) c w Q.
Proof. done. Qed.

Lemma post_raise {A} e c w (Q : outcome A → world → Prop) :
  Q (Raises e) w → post (raise e) c w Q.
Proof. done. Qed.

Lemma post_bind {A B} (m : M A) (f : A → M B) c w Q :
  post m c w (λ o w', match o with
                      | Returns a => post (f a) c w' Q
                      | Raises e => Q (Raises e) w'
                      end) →
  post (m ≫= f) c w Q.
Proof.
  unfold post, mbind, M_bind. by destruct (m c w) as [[a|e] w'].
Qed.

Lemma post_try_except {A} (m : M A) h c w Q :
  post m c w (λ o w', match o with
                      | Returns a => Q (Returns a) w'
                      | Raises e => post (h e) c w' Q
                      end) →
  post (try_except m h) c w Q.
Proof.
  unfold post, try_except. by destruct (m c w) as [[a|e] w'].
Qed.

Lemma post_finally {A} (m : M A) f c w Q :
  post m c w (λ o w', post f c w' (λ o2 w'', match o2 with
                                             | Returns _ => Q o w''
                                             | Raises e => Q (Raises e) w''
                                             end)) →
  post (finally m f) c w Q.
Proof.
  unfold post, finally. destruct (m c w) as [o w']. simpl.
  by destruct (f c w') as [[[]|e] w''].
Qed.

Lemma post_perform op c w Q :
  (∀ failure, Q (match failure with Some e => Raises e | None => Returns () end)
                (record op failure w)) →
  post (perform op) c w Q.
Proof.
  intros HQ. unfold post, perform. specialize (HQ (faults c (trace w) op)).
  by destruct (faults c (trace w) op).
Qed.

Lemma post_execute s c w Q :
  (∀ failure, Q (match failure with
                 | Some e => Raises e
                 | None => Returns (run_stmt (db c) s)
                 end)
                (record (Execute s) failure w)) →
  post (execute s) c w Q.
Proof.
  intros HQ. unfold post, execute, perform, mbind, M_bind.
  specialize (HQ (faults c (trace w) (Execute s))).
  by destruct (faults c (trace w) (Execute s)).
Qed.

Lemma post_set_payload key v c w Q :
  Q (Returns ()) {| _engine := _engine w; trace := trace w;
                    payload := <[key := v]> (payload w) |} →
  post (set_payload key v) c w Q.
Proof. done. Qed.

Lemma post_new_payload d c w Q :
  Q (Returns ()) {| _engine := _engine w; trace := trace w; payload := d |} →
  post (new_payload d) c w Q.
Proof. done. Qed.

Lemma post_get_payload c w Q :
  Q (Returns (payload w)) w → post get_payload c w Q.
Proof. done. Qed.

Ltac wp_step :=
  lazymatch goal with
  | |- post (_ ≫= _) _ _ _ => apply post_bind
  | |- post (try_except _ _) _ _ _ => apply post_try_except
  | |- post (finally _ _) _ _ _ => apply post_finally
  | |- post (mret _) _ _ _ => apply post_ret
  | |- post (raise _) _ _ _ => apply post_raise
  | |- post (set_payload _ _) _ _ _ => apply post_set_payload
  | |- post (new_payload _) _ _ _ => apply post_new_payload
  | |- post get_payload _ _ _ => apply post_get_payload
  | |- post (perform ?op) _ _ _ => apply (post_perform op); intros [?|]
  | |- post (execute ?s) _ _ _ => apply (post_execute s); intros [?|]
  end.

Ltac wp := repeat (cbv beta iota; wp_step; unfold record; cbn [_engine trace payload]).

Lemma post_after {A B} (m : M A) (f : A → M B) c w a w1 Q :
  m c w = (Returns a, w1) → post (f a) c w1 Q → post (m ≫= f) c w Q.
Proof. intros Hm. unfold post, mbind, M_bind. by rewrite Hm. Qed.

Lemma test_db_returns c w eng w1 :
  get_engine c w = (Returns eng, w1) →
  post test_db c w (λ o w', ∃ resp p ks,
    o = Returns resp ∧ trace w' = trace w1 ++ ks ∧
    content resp = JsonBody (PDict p) ∧
    if core_failed ks
    then status resp = 500 ∧ p !! "ok" = Some (PBool false) ∧
         p !! "error" = Some (PStr "db query failed")
    else status resp = 200 ∧ p !! "ok" = Some (PBool true) ∧ p !! "error" = None ∧
         ∀ tbl, p !! sample_key tbl =
                Some (PList (if sample_failed tbl ks then []
                             else PDict <$> select_sample (db c) tbl))).
Proof.
  intros Hget. unfold test_db. apply (post_after _ _ _ _ _ _ _ Hget).
  unfold with_begin, with_connect, sample_block.
  wp.
  all: cbv beta iota.
  all: do 3 eexists; (split; [reflexivity|]).
  all: (split; [cbn; rewrite <- ?app_assoc; reflexivity|]).
  all: (split; [reflexivity|]).
  all: cbn [core_failed sample_failed existsb failed call_exn call_op is_any_sample
            negb andb orb app sample_key count_key].
  all: cbv beta iota.
  all: try (split_and!; reflexivity).
  all: split_and!; try reflexivity.
  all: intros []; cbn [core_failed sample_failed existsb failed call_exn call_op is_any_sample is_sample
            negb andb orb app sample_key count_key].
  all: try match goal with
       | |- context [if ?b then _ else _] =>
           let v := eval vm_compute in b in change b with v
       end; cbv iota.
  all: repeat (rewrite lookup_insert_ne by discriminate).
  all: by rewrite lookup_insert_eq.
Qed.

(** ** Invariants of the process state *)


Section Preservation.
Variables (c : ctx) (I : world → Prop).

Lemma preserves_ret {A} (a : A) : preserves c I (mret a).
Proof. by intros w. Qed.

Lemma preserves_raise {A} e : preserves c I (raise (A:=A) e).
Proof. by intros w. Qed.

Lemma preserves_bind {A B} (m : M A) (f : A → M B) :
  preserves c I m → (∀ a, preserves c I (f a)) → preserves c I (m ≫= f).
Proof.
  intros Hm Hf w Hw. specialize (Hm w Hw). unfold mbind, M_bind.
  destruct (m c w) as [[a|e] w']; [by apply Hf|done].
Qed.

Lemma preserves_try_except {A} (m : M A) h :
  preserves c I m → (∀ e, preserves c I (h e)) → preserves c I (try_except m h).
Proof.
  intros Hm Hh w Hw. specialize (Hm w Hw). unfold try_except.
  destruct (m c w) as [[a|e] w']; [done|by apply Hh].
Qed.

Lemma preserves_finally {A} (m : M A) f :
  preserves c I m → preserves c I f → preserves c I (finally m f).
Proof.
  intros Hm Hf w Hw. specialize (Hm w Hw). unfold finally.
  destruct (m c w) as [o w']. specialize (Hf w' Hm).
  by destruct (f c w') as [[[]|e] w''].
Qed.

Lemma preserves_pure {A} (m : M A) : (∀ w, (m c w).2 = w) → preserves c I m.
Proof. intros Hm w Hw. by rewrite Hm. Qed.

Hypothesis I_record : ∀ op failure w,
  is_create_engine op = false → is_getenv op = false → I w → I (record op failure w).
Hypothesis I_payload : ∀ w p,
  I w → I {| _engine := _engine w; trace := trace w; payload := p |}.
Hypothesis I_get_engine : preserves c I get_engine.

Lemma preserves_perform op :
  is_create_engine op = false → is_getenv op = false → preserves c I (perform op).
Proof.
  intros Hce Hge w Hw. unfold perform.
  destruct (faults c (trace w) op); by apply I_record.
Qed.

Lemma preserves_execute s : preserves c I (execute s).
Proof.
  intros w Hw. unfold execute.
  by apply (preserves_bind _ _ (preserves_perform (Execute s) eq_refl eq_refl)
                          (λ _, preserves_ret _)).
Qed.

Lemma preserves_set_payload key v : preserves c I (set_payload key v).
Proof. intros w Hw. by apply I_payload. Qed.

Lemma preserves_new_payload d : preserves c I (new_payload d).
Proof. intros w Hw. by apply I_payload. Qed.

Lemma preserves_get_payload : preserves c I get_payload.
Proof. by intros w. Qed.

Ltac preserve_step :=
  lazymatch goal with
  | |- preserves _ _ (_ ≫= _) => apply preserves_bind; [|intros ?]
  | |- preserves _ _ (try_except _ _) => apply preserves_try_except; [|intros ?]
  | |- preserves _ _ (finally _ _) => apply preserves_finally
  | |- preserves _ _ (mret _) => apply preserves_ret
  | |- preserves _ _ (raise _) => apply preserves_raise
  | |- preserves _ _ (perform _) => apply preserves_perform; reflexivity
  | |- preserves _ _ (execute ?s) => apply (preserves_execute s)
  | |- preserves _ _ (set_payload _ _) => apply preserves_set_payload
  | |- preserves _ _ (new_payload _) => apply preserves_new_payload
  | |- preserves _ _ get_payload => apply preserves_get_payload
  | |- preserves _ _ get_engine => apply I_get_engine
  end.

Lemma preserves_query_view s shape : preserves c I (query_view s shape).
Proof. unfold query_view, with_connect. repeat preserve_step. Qed.

Lemma preserves_test_db : preserves c I test_db.
Proof.
  unfold test_db, with_begin, with_connect, sample_block. repeat preserve_step.
Qed.

Lemma preserves_query_handler q : preserves c I (query_handler q).
Proof.
  destruct q as [term|coords|ta tb|c1 c2]; intros w Hw; simpl.
  - by apply (preserves_query_view (SelectStudiesByTerm term)).
  - rewrite get_studies_by_coordinates_eq.
    destruct (parse_coords coords) as [[[x y] z]|]; [|done].
    by apply (preserves_query_view (SelectStudiesByCoordinates x y z)).
  - by apply (preserves_query_view (SelectDissociateTerms ta tb)).
  - rewrite dissociate_by_locations_eq.
    destruct (parse_coords c1) as [[[x1 y1] z1]|]; [|done].
    destruct (parse_coords c2) as [[[x2 y2] z2]|]; [|done].
    by apply (preserves_query_view (SelectDissociateLocations x1 y1 z1 x2 y2 z2)).
Qed.

Lemma preserves_view r : preserves c I (view r).
Proof. destruct r; [apply preserves_query_handler|apply preserves_test_db]. Qed.

Lemma serve_preserves rs w : I w → I (serve c w rs).2.
Proof.
  revert w. induction rs as [|r rs IH]; intros w Hw; simpl; [done|].
  pose proof (preserves_view r w Hw) as Hr.
  destruct (view r c w) as [o w']. specialize (IH w' Hr).
  by destruct (serve c w' rs).
Qed.

End Preservation.

Lemma memoized_serve c eng w0 rs :
  _engine w0 = Some eng → memoized eng w0 (serve c w0 rs).2.
Proof.
  intros Hm. apply serve_preserves.
  - intros op f w Hce Hge [Hw (ks & Hks & Hno)]. split; [done|].
    exists (ks ++ [ {| call_op := op; call_exn := f |} ]). split.
    + simpl. by rewrite Hks, app_assoc.
    + apply Forall_app. split; [done|]. by repeat constructor.
  - by intros w p [Hw Hks].
  - intros w [Hw Hks]. by rewrite (get_engine_memo _ _ _ Hw).
  - split; [done|]. exists []. split; [by rewrite app_nil_r|constructor].
Qed.

Lemma constructions_record op f w :
  constructions (record op f w) =
  constructions w ++
    (if is_create_engine op then [ {| call_op := op; call_exn := f |} ] else []).
Proof.
  unfold constructions. simpl. rewrite filter_app. f_equal.
  by destruct op.
Qed.

Lemma constructed_once_unset w w' :
  _engine w = None → _engine w' = None → constructions w' = constructions w →
  constructed_once w → constructed_once w'.
Proof. unfold constructed_once. by intros -> -> ->. Qed.

Lemma constructed_once_get_engine c : preserves c constructed_once get_engine.
Proof.
  intros w Hw. destruct (_engine w) as [eng|] eqn:Hm.
  { by rewrite (get_engine_memo _ _ _ Hm). }
  assert (constructed_once (record (Getenv "DB_URL") None w)) as Hw1.
  { apply (constructed_once_unset w); [done|done| |done].
    rewrite constructions_record. simpl. by rewrite app_nil_r. }
  destruct (falsy (environ c !! "DB_URL")) eqn:Hf.
  { by rewrite get_engine_unconfigured. }
  destruct (environ c !! "DB_URL") as [url|] eqn:Hurl; [|done].
  rewrite (get_engine_construct _ _ url) by (try done; by intros ->).
  unfold constructed_once in *. simpl in Hw1. rewrite Hm in Hw1.
  destruct (faults _ _ _) as [e|]; simpl.
  - rewrite Hm. rewrite constructions_record. simpl.
    apply Forall_app. split; [done|]. by repeat constructor.
  - exists (constructions (record (Getenv "DB_URL") None w)). split; [|done].
    by rewrite <- (constructions_record (CreateEngine (normalize_url url) true) None).
Qed.

Lemma constructed_once_serve c rs : constructed_once (serve c fresh rs).2.
Proof.
  apply serve_preserves.
  - intros op f w Hce Hge Hw. unfold constructed_once in *.
    rewrite constructions_record, Hce, app_nil_r. done.
  - by intros w p Hw.
  - apply constructed_once_get_engine.
  - constructor.
Qed.

Lemma unset_serve c rs :
  falsy (environ c !! "DB_URL") = true → _engine (serve c fresh rs).2 = None.
Proof.
  intros Hf. apply (serve_preserves c (λ w, _engine w = None)); [done|done| |done].
  intros w Hw. by rewrite get_engine_unconfigured.
Qed.

Lemma Forall2_shaped {A} (shape : A → pyobj) (P : A → pyobj → Prop) (rows : list A) :
  (∀ r, P r (shape r)) → Forall2 P rows (shape <$> rows).
Proof. intros HP. induction rows as [|r rows IH]; simpl; by constructor. Qed.

Lemma study_title_obj_json r : study_title_json r (study_title_obj r).
Proof.
  eexists. split; [reflexivity|]. split_and!.
  - apply lookup_insert_eq.
  - rewrite lookup_insert_ne by discriminate. apply lookup_singleton_eq.
  - intros key Hid Htitle. rewrite lookup_insert_ne by done.
    by apply lookup_singleton_ne.
Qed.

Lemma coord_study_title_obj_json coord r :
  coord_study_title_json coord r (coord_study_title_obj coord r).
Proof.
  eexists. split; [reflexivity|]. split_and!.
  - apply lookup_insert_eq.
  - rewrite lookup_insert_ne by discriminate. apply lookup_insert_eq.
  - rewrite !lookup_insert_ne by discriminate. apply lookup_singleton_eq.
  - intros key Hcoord Hid Htitle. rewrite !lookup_insert_ne by done.
    by apply lookup_singleton_ne.
Qed.

Lemma coord_study_title_obj_coord coord r :
  ∃ d, coord_study_title_obj coord r = PDict d ∧ d !! "coord" = Some coord.
Proof. eexists. split; [reflexivity|]. apply lookup_insert_eq. Qed.

Lemma existsb_app_false {A} (f : A → bool) l k :
  existsb f l = false → existsb f (l ++ k) = existsb f k.
Proof. intros Hl. by rewrite existsb_app, Hl. Qed.

Lemma any_failed_none ks f :
  any_failed ks = false → existsb (λ k, failed k && f k) ks = false.
Proof.
  unfold any_failed. induction ks as [|k ks IH]; simpl; [done|].
  intros [-> Hks]%orb_false_elim. by rewrite IH.
Qed.

Lemma prefix_append p rest : String.prefix p (p +:+ rest) = true.
Proof.
  induction p as [|ch p IH]; simpl; [by destruct rest|].
  by destruct (ascii_dec ch ch).
Qed.

Lemma str_from_append p rest : str_from (String.length p) (p +:+ rest) = rest.
Proof. by induction p as [|ch p IH]. Qed.

(** ** The claims of the specification *)

(** C1.  Whatever the database and the state of the process, the
    dissociate-terms handler answers with the generic error or with a list
    of objects, one per row [r] in order, each holding under [study_id] the
    study of [r], under [title] its title and nothing else; the rows are
    exactly those such that some annotation row of the snapshot has the study
    of [r] and term [ta], no annotation row has that study and term [tb], and
    some metadata row has that study and the title [r] carries. *)
Theorem dissociate_terms_anti_join (c : ctx) (w : world) (ta tb : string) :
  (dissociate_by_terms ta tb c w).1 = Returns db_query_failed ∨
  ∃ rows objs,
    (dissociate_by_terms ta tb c w).1 = Returns (jsonify (PList objs)) ∧
    Forall2 study_title_json rows objs ∧
    ∀ r, r ∈ rows ↔
      (∃ a, a ∈ annotations_terms (db c) ∧ a_study_id a = st_study_id r ∧ a_term a = ta) ∧
      (∀ b, b ∈ annotations_terms (db c) → a_study_id b = st_study_id r → a_term b ≠ tb) ∧
      (∃ m, m ∈ metadata (db c) ∧ m_study_id m = st_study_id r ∧ m_title m = st_title r).
Proof.
  rewrite dissociate_by_terms_view.
  destruct (query_view_cases (SelectDissociateTerms ta tb)
              (λ rows, PList (study_title_obj <$> rows)) c w)
    as (resp & w' & -> & [-> | ->] & _); simpl; [by left|right].
  do 2 eexists. split; [reflexivity|].
  split; [apply Forall2_shaped, study_title_obj_json|].
  apply elem_of_select_dissociate_terms.
Qed.

(** C2.  A coordinate string that splits on underscores into exactly three
    segments read by [float] sends both coordinate handlers into their query
    block with exactly the three values read; on any other string the
    handler aborts with 400 and leaves the state as it was: no call is
    recorded and the handle is not constructed.  The query block, when no
    call fails and a handle can be had, executes the statement with those
    values. *)
Theorem coordinates_validation (ctx0 : ctx) (w : world) :
  (∀ coords,
     match parse_coords coords with
     | Some (x, y, z) =>
         get_studies_by_coordinates coords ctx0 w = studies_at x y z ctx0 w
     | None => get_studies_by_coordinates coords ctx0 w = (Raises bad_coords, w)
     end) ∧
  (∀ c1 c2,
     match parse_coords c1, parse_coords c2 with
     | Some (x1, y1, z1), Some (x2, y2, z2) =>
         dissociate_by_locations c1 c2 ctx0 w = dissociate_at x1 y1 z1 x2 y2 z2 ctx0 w
     | _, _ => dissociate_by_locations c1 c2 ctx0 w = (Raises bad_coords, w)
     end) ∧
  status (render (Raises bad_coords)) = 400 ∧
  (reliable ctx0 → engine_available ctx0 w →
   (∀ x y z,
      {| call_op := Execute (SelectStudiesByCoordinates x y z); call_exn := None |}
        ∈ calls_since w (studies_at x y z ctx0 w).2) ∧
   (∀ x1 y1 z1 x2 y2 z2,
      {| call_op := Execute (SelectDissociateLocations x1 y1 z1 x2 y2 z2);
         call_exn := None |}
        ∈ calls_since w (dissociate_at x1 y1 z1 x2 y2 z2 ctx0 w).2)).
Proof.
  split_and!.
  - intros coords. rewrite get_studies_by_coordinates_eq.
    by destruct (parse_coords coords) as [[[x y] z]|].
  - intros c1 c2. rewrite dissociate_by_locations_eq.
    destruct (parse_coords c1) as [[[x1 y1] z1]|]; [|done].
    by destruct (parse_coords c2) as [[[x2 y2] z2]|].
  - reflexivity.
  - intros Hok Havail. split.
    + intros x y z. rewrite studies_at_view.
      by destruct (query_view_reaches (SelectStudiesByCoordinates x y z)
                     (λ rows, PList (PId <$> rows)) ctx0 w Hok Havail) as (w' & -> & Hin).
    + intros x1 y1 z1 x2 y2 z2. rewrite dissociate_at_view.
      by destruct (query_view_reaches (SelectDissociateLocations x1 y1 z1 x2 y2 z2)
                     (λ rows, PList (coord_study_title_obj
                                       (PList [PFloat x1; PFloat y1; PFloat z1]) <$> rows))
                     ctx0 w Hok Havail) as (w' & -> & Hin).
Qed.

(** C3.  For every term, every coordinate string and every database, the
    identifiers the studies-by-term and studies-by-coordinate handlers return
    are in ascending order and without duplicates; the handlers' other
    outcomes are the generic error and, for coordinates, the 400. *)
Theorem studies_sorted_distinct (c : ctx) (w : world) :
  (∀ term,
     (get_studies_by_term term c w).1 = Returns db_query_failed ∨
     ∃ ids, (get_studies_by_term term c w).1 = Returns (jsonify (PList (PId <$> ids))) ∧
            StronglySorted study_id_le ids ∧ NoDup ids) ∧
  (∀ coords,
     (get_studies_by_coordinates coords c w).1 = Raises bad_coords ∨
     (get_studies_by_coordinates coords c w).1 = Returns db_query_failed ∨
     ∃ ids, (get_studies_by_coordinates coords c w).1 =
              Returns (jsonify (PList (PId <$> ids))) ∧
            StronglySorted study_id_le ids ∧ NoDup ids).
Proof.
  split.
  - intros term. rewrite get_studies_by_term_view.
    destruct (query_view_cases (SelectStudiesByTerm term)
                (λ rows, PList (PId <$> rows)) c w)
      as (resp & w' & -> & [-> | ->] & _); simpl; [by left|right].
    eexists. split; [reflexivity|]. apply sorted_distinct.
  - intros coords. rewrite get_studies_by_coordinates_eq.
    destruct (parse_coords coords) as [[[x y] z]|]; [|by left]. right.
    rewrite studies_at_view.
    destruct (query_view_cases (SelectStudiesByCoordinates x y z)
                (λ rows, PList (PId <$> rows)) c w)
      as (resp & w' & -> & [-> | ->] & _); simpl; [by left|right].
    eexists. split; [reflexivity|]. apply sorted_distinct.
Qed.

(** C4.  For each of the four query handlers: if any call made while
    serving the request failed, the response is status 500 with the body
    [{"error": "db query failed"}], whatever the exception was; and the
    outcome is always that error, the complete answer on the snapshot, or
    (on malformed coordinates, before any call) the 400. *)
Theorem db_failure_generic_error (c : ctx) (w : world) (q : query) :
  status db_query_failed = 500 ∧
  content db_query_failed = JsonBody (PDict {[ "error" := PStr "db query failed" ]}) ∧
  ∃ o w',
    query_handler q c w = (o, w') ∧
    (any_failed (calls_since w w') = true → o = Returns db_query_failed) ∧
    (o = Returns db_query_failed ∨
     (∃ full, full_answer (db c) q = Some full ∧ o = Returns full) ∨
     (well_formed q = false ∧ o = Raises bad_coords ∧ w' = w)).
Proof.
  split; [done|]. split; [done|].
  assert (∀ s shape, ∃ o w',
    query_view s shape c w = (o, w') ∧
    (any_failed (calls_since w w') = true → o = Returns db_query_failed) ∧
    (o = Returns db_query_failed ∨ o = Returns (jsonify (shape (run_stmt (db c) s)))))
    as Hview.
  { intros s shape.
    destruct (query_view_cases s shape c w) as (resp & w' & -> & Hresp & Hfail).
    exists (Returns resp), w'. split; [done|]. split; [by intros ->%Hfail|].
    destruct Hresp as [-> | ->]; auto. }
  assert (∀ o w' full,
    (any_failed (calls_since w w') = true → o = Returns db_query_failed) →
    full_answer (db c) q = Some full →
    o = Returns db_query_failed ∨ o = Returns full →
    ∃ o0 w0, (o, w') = (o0, w0) ∧
      (any_failed (calls_since w w0) = true → o0 = Returns db_query_failed) ∧
      (o0 = Returns db_query_failed ∨
       (∃ full, full_answer (db c) q = Some full ∧ o0 = Returns full) ∨
       (well_formed q = false ∧ o0 = Raises bad_coords ∧ w0 = w))) as Hgood.
  { intros o w' full Hfail Hfull Ho. exists o, w'. split; [done|]. split; [done|].
    destruct Ho as [-> | ->]; [by left|right; left; eauto]. }
  assert (well_formed q = false →
    ∃ o0 w0, (Raises bad_coords, w) = (o0, w0) ∧
      (any_failed (calls_since w w0) = true → o0 = Returns db_query_failed) ∧
      (o0 = Returns db_query_failed ∨
       (∃ full, full_answer (db c) q = Some full ∧ o0 = Returns full) ∨
       (well_formed q = false ∧ o0 = Raises bad_coords ∧ w0 = w))) as Hbad.
  { intros Hq. exists (Raises bad_coords), w. split; [done|]. split; [|auto].
    by rewrite calls_since_same. }
  destruct q as [term|coords|ta tb|c1 c2]; simpl query_handler.
  - destruct (Hview (SelectStudiesByTerm term) (λ rows, PList (PId <$> rows)))
      as (o & w' & Hrun & Hfail & Ho). rewrite get_studies_by_term_view, Hrun.
    by eapply Hgood.
  - rewrite get_studies_by_coordinates_eq.
    destruct (parse_coords coords) as [[[x y] z]|] eqn:Hp.
    + destruct (Hview (SelectStudiesByCoordinates x y z) (λ rows, PList (PId <$> rows)))
        as (o & w' & Hrun & Hfail & Ho). rewrite studies_at_view, Hrun.
      eapply Hgood; [done| |exact Ho]. simpl. by rewrite Hp.
    + apply Hbad. simpl. by rewrite Hp.
  - destruct (Hview (SelectDissociateTerms ta tb)
                (λ rows, PList (study_title_obj <$> rows)))
      as (o & w' & Hrun & Hfail & Ho). rewrite dissociate_by_terms_view, Hrun.
    by eapply Hgood.
  - rewrite dissociate_by_locations_eq.
    destruct (parse_coords c1) as [[[x1 y1] z1]|] eqn:Hp1;
      [destruct (parse_coords c2) as [[[x2 y2] z2]|] eqn:Hp2|].
    + destruct (Hview (SelectDissociateLocations x1 y1 z1 x2 y2 z2)
                  (λ rows, PList (coord_study_title_obj
                                    (PList [PFloat x1; PFloat y1; PFloat z1]) <$> rows)))
        as (o & w' & Hrun & Hfail & Ho). rewrite dissociate_at_view, Hrun.
      eapply Hgood; [done| |exact Ho]. simpl. by rewrite Hp1, Hp2.
    + apply Hbad. simpl. by rewrite Hp1, Hp2.
    + apply Hbad. simpl. by rewrite Hp1.
Qed.

(** C5.  Every object of a dissociate-locations answer carries under
    [coord] the list of the three values read from the first coordinate
    string, the same for every row and whatever the rows of the database
    hold. *)
Theorem dissociate_locations_echoes_input (c : ctx) (w : world) (c1 c2 : string) :
  (dissociate_by_locations c1 c2 c w).1 = Raises bad_coords ∨
  (dissociate_by_locations c1 c2 c w).1 = Returns db_query_failed ∨
  ∃ x1 y1 z1 x2 y2 z2,
    parse_coords c1 = Some (x1, y1, z1) ∧ parse_coords c2 = Some (x2, y2, z2) ∧
    let coord := PList [PFloat x1; PFloat y1; PFloat z1] in
    let objs := coord_study_title_obj coord
                  <$> select_dissociate_locations (db c) x1 y1 z1 x2 y2 z2 in
    (dissociate_by_locations c1 c2 c w).1 = Returns (jsonify (PList objs)) ∧
    Forall (λ o, ∃ d, o = PDict d ∧ d !! "coord" = Some coord) objs.
Proof.
  rewrite dissociate_by_locations_eq.
  destruct (parse_coords c1) as [[[x1 y1] z1]|]; [|by left].
  destruct (parse_coords c2) as [[[x2 y2] z2]|]; [|by left].
  right. rewrite dissociate_at_view.
  destruct (query_view_cases (SelectDissociateLocations x1 y1 z1 x2 y2 z2)
              (λ rows, PList (coord_study_title_obj
                                (PList [PFloat x1; PFloat y1; PFloat z1]) <$> rows)) c w)
    as (resp & w' & -> & [-> | ->] & _); simpl; [by left|right].
  exists x1, y1, z1, x2, y2, z2. split; [done|]. split; [done|]. split; [done|].
  apply Forall_fmap, Forall_forall. intros r _. apply coord_study_title_obj_coord.
Qed.

(** C6.  When the diagnostics handler returns, its body is the payload; if
    no call other than the three sample statements failed, the status is 200,
    [ok] is true, there is no [error], and each sample field is the empty
    list when its statement failed and the sampled rows otherwise; if such a
    call failed (connection, transaction, search path, version, a count,
    commit), the status is 500, [ok] is false and [error] is set.  The
    handler raises only when the provider does. *)
Theorem test_db_partial_failure (c : ctx) (w : world) :
  match test_db c w with
  | (Raises e, w') => get_engine c w = (Raises e, w')
  | (Returns resp, w') =>
      let ks := calls_since w w' in
      ∃ p, content resp = JsonBody (PDict p) ∧
        if core_failed ks
        then status resp = 500 ∧ p !! "ok" = Some (PBool false) ∧
             p !! "error" = Some (PStr "db query failed")
        else status resp = 200 ∧ p !! "ok" = Some (PBool true) ∧
             p !! "error" = None ∧
             ∀ tbl, p !! sample_key tbl =
                    Some (PList (if sample_failed tbl ks then []
                                 else PDict <$> select_sample (db c) tbl))
  end.
Proof.
  destruct (get_engine c w) as [[eng|e] w1] eqn:Hget.
  - pose proof (test_db_returns c w eng w1 Hget) as Hpost. unfold post in Hpost.
    destruct (test_db c w) as [o w']. simpl in Hpost.
    destruct Hpost as (resp & p & ks & -> & Hks & Hp & Hcases).
    destruct (get_engine_calls c w eng w1 Hget) as (ks0 & Hks0 & Hnone).
    assert (calls_since w w' = ks0 ++ ks) as ->.
    { apply calls_since_app. by rewrite Hks, Hks0, app_assoc. }
    exists p. split; [done|]. unfold core_failed, sample_failed in *.
    rewrite existsb_app_false by (apply any_failed_none; done).
    destruct (existsb _ ks) eqn:Hcore; [done|].
    destruct Hcases as (? & ? & ? & Hsamples). split_and!; try done.
    intros tbl. rewrite existsb_app_false by (apply any_failed_none; done).
    apply Hsamples.
  - by rewrite (test_db_raises c w e w1 Hget).
Qed.

(** C7, as amended.  A connection string that begins with [postgres://]
    has exactly that prefix replaced by [postgresql://], the rest unchanged,
    and any other string is used as it is; the handle is constructed from
    the rewritten string.  The rewriting happens at each construction
    attempt: in the record of any process every construction before the last
    failed, and once a construction has succeeded none follows it. *)
Theorem url_rewritten_per_construction :
  (∀ rest, normalize_url ("postgres://" +:+ rest) = "postgresql://" +:+ rest) ∧
  (∀ url, startswith url "postgres://" = false → normalize_url url = url) ∧
  (∀ c w url eng w',
     _engine w = None → environ c !! "DB_URL" = Some url →
     get_engine c w = (Returns eng, w') →
     eng_url eng = normalize_url url ∧
     calls_since w w' =
       [ {| call_op := Getenv "DB_URL"; call_exn := None |};
         {| call_op := CreateEngine (normalize_url url) true; call_exn := None |} ]) ∧
  (∀ c rs, constructed_once (serve c fresh rs).2).
Proof.
  split_and!.
  - intros rest. unfold normalize_url, startswith.
    by rewrite prefix_append, str_from_append.
  - intros url Hp. unfold normalize_url. by rewrite Hp.
  - intros c w url eng w' Hm Hurl Hget.
    destruct (decide (url = "")) as [->|Hne].
    { rewrite get_engine_unconfigured in Hget by (by rewrite ?Hurl). done. }
    rewrite (get_engine_construct c w url) in Hget by done. simpl in Hget.
    destruct (faults _ _ _); [done|]. injection Hget as <- <-. split; [done|].
    apply calls_since_app. simpl. by rewrite <- app_assoc.
  - apply constructed_once_serve.
Qed.

(** C8.  Once a call to the provider has returned a handle, the global
    holds it, and after any further requests, under any configuration, the
    global still holds that handle, the provider returns it leaving the
    state untouched, and neither the environment was read nor a handle
    constructed. *)
Theorem engine_memoized (c : ctx) (w : world) (eng : engine) (w1 : world) :
  get_engine c w = (Returns eng, w1) →
  _engine w1 = Some eng ∧
  ∀ c' rs,
    let w' := (serve c' w1 rs).2 in
    memoized eng w1 w' ∧ get_engine c' w' = (Returns eng, w').
Proof.
  intros Hget. pose proof (get_engine_returns c w eng w1 Hget) as Hm.
  split; [done|]. intros c' rs w'.
  pose proof (memoized_serve c' eng w1 rs Hm) as Hmemo. split; [done|].
  apply get_engine_memo, Hmemo.
Qed.

(** C9.  Three underscore-free components that [float] reads, whatever
    their form, pass validation with the values read.  [float] reads [inf],
    [nan], [1e5] and a number between spaces, so [nan_inf_1e5] is not
    rejected: both coordinate handlers enter their query block with the
    values of [nan], [inf] and [1e5], and when no call fails and a handle can
    be had the statement is executed with them. *)
Theorem float_forms_pass_validation :
  (∀ a b c0 x y z ctx0 w,
     str_contains "_" a = false → str_contains "_" b = false →
     str_contains "_" c0 = false →
     py_float a = Some x → py_float b = Some y → py_float c0 = Some z →
     parse_coords (underscored a b c0) = Some (x, y, z) ∧
     get_studies_by_coordinates (underscored a b c0) ctx0 w = studies_at x y z ctx0 w ∧
     dissociate_by_locations (underscored a b c0) (underscored a b c0) ctx0 w =
       dissociate_at x y z x y z ctx0 w) ∧
  py_float "inf" = Some float_inf ∧
  py_float "nan" = Some float_nan ∧
  py_float "1e5" = Some float_1e5 ∧
  py_float " 1.5 " = Some float_1_5 ∧
  ∀ ctx0 w,
    get_studies_by_coordinates "nan_inf_1e5" ctx0 w =
      studies_at float_nan float_inf float_1e5 ctx0 w ∧
    dissociate_by_locations "nan_inf_1e5" "nan_inf_1e5" ctx0 w =
      dissociate_at float_nan float_inf float_1e5 float_nan float_inf float_1e5 ctx0 w ∧
    (reliable ctx0 → engine_available ctx0 w →
     {| call_op := Execute (SelectStudiesByCoordinates float_nan float_inf float_1e5);
        call_exn := None |}
       ∈ calls_since w (get_studies_by_coordinates "nan_inf_1e5" ctx0 w).2).
Proof.
  assert (parse_coords "nan_inf_1e5" = Some (float_nan, float_inf, float_1e5)) as Hparse.
  { unfold parse_coords. change (str_split "_" "nan_inf_1e5") with ["nan"; "inf"; "1e5"].
    cbv beta iota.
    rewrite (py_float_literal "nan" LitNan) by reflexivity.
    rewrite (py_float_literal "inf" (LitInf false)) by reflexivity.
    by rewrite (py_float_literal "1e5" (LitDec false 1 5)) by reflexivity. }
  split_and!; try (by apply py_float_literal).
  - intros a b c0 x y z ctx0 w Ha Hb Hc Hx Hy Hz.
    pose proof (parse_coords_underscored a b c0 x y z Ha Hb Hc Hx Hy Hz) as Hp.
    rewrite get_studies_by_coordinates_eq, dissociate_by_locations_eq, Hp. done.
  - intros ctx0 w.
    rewrite get_studies_by_coordinates_eq, dissociate_by_locations_eq, Hparse.
    split; [done|]. split; [done|]. intros Hok Havail. rewrite studies_at_view.
    by destruct (query_view_reaches
                   (SelectStudiesByCoordinates float_nan float_inf float_1e5)
                   (λ rows, PList (PId <$> rows)) ctx0 w Hok Havail) as (w' & -> & Hin).
Qed.

(** C10.  In a process whose environment has no connection string, after
    any requests the global is still unset; each query handler then answers
    a well-formed request with the generic error at status 500 (having only
    read the environment), whereas the diagnostics handler raises the
    provider's [RuntimeError]: Flask renders its own 500 page and no
    diagnostics payload is produced. *)
Theorem missing_configuration (c : ctx) (rs : list request) :
  falsy (environ c !! "DB_URL") = true →
  let w := (serve c fresh rs).2 in
  let w1 := record (Getenv "DB_URL") None w in
  _engine w = None ∧
  (∀ q, query_handler q c w =
        if well_formed q then (Returns db_query_failed, w1) else (Raises bad_coords, w)) ∧
  test_db c w = (Raises missing_db_url, w1) ∧
  render (test_db c w).1 = {| status := 500; content := HtmlBody "Internal Server Error" |}.
Proof.
  intros Hf w w1. pose proof (unset_serve c rs Hf) as Hm. fold w in Hm.
  split; [done|]. split_and!.
  - intros [term|coords|ta tb|c1 c2]; simpl.
    + by rewrite get_studies_by_term_view, query_view_unconfigured.
    + rewrite get_studies_by_coordinates_eq.
      destruct (parse_coords coords) as [[[x y] z]|]; [|done].
      by rewrite studies_at_view, query_view_unconfigured.
    + by rewrite dissociate_by_terms_view, query_view_unconfigured.
    + rewrite dissociate_by_locations_eq.
      destruct (parse_coords c1) as [[[x1 y1] z1]|]; [|done].
      destruct (parse_coords c2) as [[[x2 y2] z2]|]; [|done].
      by rewrite dissociate_at_view, query_view_unconfigured.
  - apply test_db_raises. by apply get_engine_unconfigured.
  - rewrite (test_db_raises c w missing_db_url w1); [done|].
    by apply get_engine_unconfigured.
Qed.

(** ** Further properties of the handlers *)

Lemma elem_of_select_studies_by_term d t s :
  s ∈ select_studies_by_term d t ↔
  ∃ a, a ∈ annotations_terms d ∧ a_study_id a = s ∧ a_term a = t.
Proof.
  unfold select_studies_by_term.
  rewrite merge_sort_Permutation, elem_of_remove_dups, list_elem_of_fmap.
  split.
  - intros (a & -> & [Ht Ha]%list_elem_of_filter). eauto.
  - intros (a & Ha & <- & Ht). exists a. split; [done|]. by apply list_elem_of_filter.
Qed.

Lemma elem_of_select_studies_by_coordinates d x y z s :
  s ∈ select_studies_by_coordinates d x y z ↔
  ∃ r, r ∈ coordinates d ∧ c_study_id r = s ∧ at_point x y z r = true.
Proof.
  unfold select_studies_by_coordinates.
  rewrite merge_sort_Permutation, elem_of_remove_dups, list_elem_of_fmap.
  split.
  - intros (a & -> & [Ht Ha]%list_elem_of_filter). apply Is_true_true in Ht. eauto.
  - intros (a & Ha & <- & Ht). exists a. split; [done|].
    apply list_elem_of_filter. split; [by apply Is_true_true|done].
Qed.

Lemma elem_of_select_dissociate_locations d x1 y1 z1 x2 y2 z2 r :
  r ∈ select_dissociate_locations d x1 y1 z1 x2 y2 z2 ↔
  (∃ a, a ∈ coordinates d ∧ c_study_id a = st_study_id r ∧ at_point x1 y1 z1 a = true) ∧
  (∀ b, b ∈ coordinates d → c_study_id b = st_study_id r → at_point x2 y2 z2 b = false) ∧
  (∃ m, m ∈ metadata d ∧ m_study_id m = st_study_id r ∧ m_title m = st_title r).
Proof.
  unfold select_dissociate_locations.
  rewrite merge_sort_Permutation, elem_of_remove_dups, elem_of_join_metadata.
  split.
  - intros (a & m & Ha & Hm & Hk & ->). simpl.
    apply list_elem_of_filter in Ha as [[Hta Hnb] Ha].
    apply bool_decide_unpack in Hnb. apply Is_true_true in Hta.
    pose proof (proj1 (filter_nil_none _ _) Hnb) as Hnone.
    split; [eauto|]. split; [|eauto].
    intros b Hb Hid. destruct (at_point x2 y2 z2 b) eqn:Hb2; [|done].
    destruct (Hnone b Hb). split; [done|]. by apply Is_true_true.
  - intros ((a & Ha & Hid & Hta) & Hnb & (m & Hm & Hmid & Htitle)).
    exists a, m. split; [|split; [done|split; [congruence|]]].
    + apply list_elem_of_filter. split; [|done]. split; [by apply Is_true_true|].
      apply bool_decide_pack. apply (proj2 (filter_nil_none _ _)).
      intros b Hb [Hbid Htb]. apply Is_true_true in Htb.
      rewrite (Hnb b Hb) in Htb; [done|congruence].
    + destruct r; simpl in *; congruence.
Qed.

Lemma by_study_id_transitive {A} (key : A → study_id) : Transitive (by_study_id key).
Proof. intros r1 r2 r3. unfold by_study_id. apply transitivity. Qed.

Lemma by_study_id_total {A} (key : A → study_id) : Total (by_study_id key).
Proof. intros r1 r2. unfold by_study_id. apply total, _. Qed.

Lemma ordered_distinct_rows (rows : list study_title) :
  StronglySorted (by_study_id st_study_id)
    (merge_sort (by_study_id st_study_id) (remove_dups rows)) ∧
  NoDup (merge_sort (by_study_id st_study_id) (remove_dups rows)).
Proof.
  split.
  - apply StronglySorted_merge_sort;
      [apply by_study_id_transitive|apply by_study_id_total].
  - rewrite merge_sort_Permutation. apply NoDup_remove_dups.
Qed.

Lemma StronglySorted_fmap_key {A} (key : A → study_id) (l : list A) :
  StronglySorted (by_study_id key) l → StronglySorted study_id_le (key <$> l).
Proof.
  induction 1 as [|r l Hl IH Hr]; simpl; constructor; [done|].
  apply Forall_fmap. by apply (Forall_impl _ _ _ Hr).
Qed.

Lemma NoDup_fmap_key {A B} (f : A → B) (l : list A) :
  (∀ x y, x ∈ l → y ∈ l → f x = f y → x = y) → NoDup l → NoDup (f <$> l).
Proof.
  intros Hinj. induction 1 as [|x l Hx Hl IH]; simpl; constructor.
  - intros (y & Hxy & Hy)%list_elem_of_fmap.
    rewrite (Hinj x y) in Hx; [done|left|by right|done].
  - apply IH. intros y z Hy Hz. apply Hinj; by right.
Qed.

Lemma NoDup_fmap_same {A B} (f : A → B) (l : list A) x y :
  NoDup (f <$> l) → x ∈ l → y ∈ l → f x = f y → x = y.
Proof.
  induction l as [|a l IH]; simpl; [by intros _ ?%elem_of_nil|].
  intros [Ha Hl]%NoDup_cons [->|Hx]%elem_of_cons [->|Hy]%elem_of_cons Hf; [done| | |by apply IH].
  - destruct Ha. rewrite Hf. by apply list_elem_of_fmap_2.
  - destruct Ha. rewrite <- Hf. by apply list_elem_of_fmap_2.
Qed.

(** With one metadata row per study, a joined row is determined by its
    study. *)
Lemma join_metadata_key {A} (key : A → study_id) d (rows : list A) r1 r2 :
  NoDup (m_study_id <$> metadata d) →
  r1 ∈ join_metadata key d rows → r2 ∈ join_metadata key d rows →
  st_study_id r1 = st_study_id r2 → r1 = r2.
Proof.
  intros Hkey (a1 & m1 & _ & Hm1 & Hk1 & ->)%elem_of_join_metadata
              (a2 & m2 & _ & Hm2 & Hk2 & ->)%elem_of_join_metadata. simpl.
  intros Hid. rewrite Hid. f_equal.
  rewrite (NoDup_fmap_same m_study_id (metadata d) m1 m2); [done..|congruence].
Qed.

Lemma query_view_outcome s shape c w :
  (query_view s shape c w).1 = Returns db_query_failed ∨
  (query_view s shape c w).1 = Returns (jsonify (shape (run_stmt (db c) s))).
Proof.
  destruct (query_view_cases s shape c w) as (resp & w' & -> & [-> | ->] & _); auto.
Qed.

(** X1.  A dissociate-locations answer is a list of objects, one per row
    in order, each holding the requested triple under [coord], the study
    under [study_id], its title under [title] and nothing else; the rows are
    exactly the pairs of a study and a title such that the study has a point
    equal to the first triple, has no point equal to the second, and has
    that title in the metadata relation. *)
Theorem dissociate_locations_anti_join (c : ctx) (w : world) (c1 c2 : string) :
  (dissociate_by_locations c1 c2 c w).1 = Raises bad_coords ∨
  (dissociate_by_locations c1 c2 c w).1 = Returns db_query_failed ∨
  ∃ x1 y1 z1 x2 y2 z2 rows objs,
    parse_coords c1 = Some (x1, y1, z1) ∧ parse_coords c2 = Some (x2, y2, z2) ∧
    (dissociate_by_locations c1 c2 c w).1 = Returns (jsonify (PList objs)) ∧
    Forall2 (coord_study_title_json (PList [PFloat x1; PFloat y1; PFloat z1])) rows objs ∧
    ∀ r, r ∈ rows ↔
      located (db c) (st_study_id r) x1 y1 z1 ∧
      ¬ located (db c) (st_study_id r) x2 y2 z2 ∧
      titled (db c) (st_study_id r) (st_title r).
Proof.
  rewrite dissociate_by_locations_eq.
  destruct (parse_coords c1) as [[[x1 y1] z1]|]; [|by left].
  destruct (parse_coords c2) as [[[x2 y2] z2]|]; [|by left].
  right. rewrite dissociate_at_view.
  destruct (query_view_outcome (SelectDissociateLocations x1 y1 z1 x2 y2 z2)
              (λ rows, PList (coord_study_title_obj
                                (PList [PFloat x1; PFloat y1; PFloat z1]) <$> rows)) c w)
    as [-> | ->]; [by left|right].
  exists x1, y1, z1, x2, y2, z2. do 2 eexists. split; [done|]. split; [done|].
  split; [reflexivity|].
  split; [apply Forall2_shaped; intros r; apply coord_study_title_obj_json|].
  intros r. simpl.
  rewrite elem_of_select_dissociate_locations. unfold located, titled.
  split.
  - intros (Ha & Hnb & Hm). split; [done|]. split; [|done].
    intros (b & Hb & Hid & Hat). by rewrite (Hnb b Hb Hid) in Hat.
  - intros (Ha & Hnb & Hm). split; [done|]. split; [|done].
    intros b Hb Hid. destruct (at_point x2 y2 z2 b) eqn:Hat; [|done].
    destruct Hnb. eauto.
Qed.

(** X2.  The identifiers of a studies-by-term answer are exactly the
    studies that have an annotation row with the term: none is missing and
    none is added; a term nobody is annotated with gives the empty list. *)
Theorem studies_by_term_exact (c : ctx) (w : world) (term : string) :
  (get_studies_by_term term c w).1 = Returns db_query_failed ∨
  ∃ ids,
    (get_studies_by_term term c w).1 = Returns (jsonify (PList (PId <$> ids))) ∧
    ∀ s, s ∈ ids ↔ annotated (db c) s term.
Proof.
  rewrite get_studies_by_term_view.
  destruct (query_view_outcome (SelectStudiesByTerm term)
              (λ rows, PList (PId <$> rows)) c w) as [-> | ->]; [by left|right].
  eexists. split; [reflexivity|]. intros s. apply elem_of_select_studies_by_term.
Qed.

(** X3.  The identifiers of a studies-by-coordinate answer are exactly
    the studies that have a point equal to the three values read from the
    path. *)
Theorem studies_by_coordinates_exact (c : ctx) (w : world) (coords : string) :
  (get_studies_by_coordinates coords c w).1 = Raises bad_coords ∨
  (get_studies_by_coordinates coords c w).1 = Returns db_query_failed ∨
  ∃ x y z ids,
    parse_coords coords = Some (x, y, z) ∧
    (get_studies_by_coordinates coords c w).1 = Returns (jsonify (PList (PId <$> ids))) ∧
    ∀ s, s ∈ ids ↔ located (db c) s x y z.
Proof.
  rewrite get_studies_by_coordinates_eq.
  destruct (parse_coords coords) as [[[x y] z]|]; [|by left].
  right. rewrite studies_at_view.
  destruct (query_view_outcome (SelectStudiesByCoordinates x y z)
              (λ rows, PList (PId <$> rows)) c w) as [-> | ->]; [by left|right].
  exists x, y, z. eexists. split; [done|]. split; [reflexivity|].
  intros s. apply elem_of_select_studies_by_coordinates.
Qed.

(** X4.  The rows of both dissociation answers come in ascending order of
    study identifier and no (study, title) pair comes twice. *)
Theorem dissociations_ordered (c : ctx) (w : world) :
  (∀ ta tb,
     (dissociate_by_terms ta tb c w).1 = Returns db_query_failed ∨
     ∃ rows,
       (dissociate_by_terms ta tb c w).1 =
         Returns (jsonify (PList (study_title_obj <$> rows))) ∧
       StronglySorted study_id_le (st_study_id <$> rows) ∧ NoDup rows) ∧
  (∀ c1 c2,
     (dissociate_by_locations c1 c2 c w).1 = Raises bad_coords ∨
     (dissociate_by_locations c1 c2 c w).1 = Returns db_query_failed ∨
     ∃ coord rows,
       (dissociate_by_locations c1 c2 c w).1 =
         Returns (jsonify (PList (coord_study_title_obj coord <$> rows))) ∧
       StronglySorted study_id_le (st_study_id <$> rows) ∧ NoDup rows).
Proof.
  split.
  - intros ta tb. rewrite dissociate_by_terms_view.
    destruct (query_view_outcome (SelectDissociateTerms ta tb)
                (λ rows, PList (study_title_obj <$> rows)) c w) as [-> | ->];
      [by left|right].
    eexists. split; [reflexivity|]. simpl. unfold select_dissociate_terms.
    split; [apply StronglySorted_fmap_key|]; apply ordered_distinct_rows.
  - intros c1 c2. rewrite dissociate_by_locations_eq.
    destruct (parse_coords c1) as [[[x1 y1] z1]|]; [|by left].
    destruct (parse_coords c2) as [[[x2 y2] z2]|]; [|by left].
    right. rewrite dissociate_at_view.
    destruct (query_view_outcome (SelectDissociateLocations x1 y1 z1 x2 y2 z2)
                (λ rows, PList (coord_study_title_obj
                                  (PList [PFloat x1; PFloat y1; PFloat z1]) <$> rows)) c w)
      as [-> | ->]; [by left|right].
    do 2 eexists. split; [reflexivity|]. simpl. unfold select_dissociate_locations.
    split; [apply StronglySorted_fmap_key|]; apply ordered_distinct_rows.
Qed.

Lemma sorted_rows_key {A} (key : A → study_id) d (rows : list A) :
  NoDup (m_study_id <$> metadata d) →
  NoDup (st_study_id <$>
           merge_sort (by_study_id st_study_id) (remove_dups (join_metadata key d rows))).
Proof.
  intros Hkey. apply NoDup_fmap_key; [|apply ordered_distinct_rows].
  intros r1 r2 Hr1 Hr2.
  rewrite merge_sort_Permutation, elem_of_remove_dups in Hr1, Hr2.
  by apply (join_metadata_key key d rows).
Qed.

(** X5.  When the metadata relation has one row per study, no study
    comes twice in a dissociation answer. *)
Theorem dissociations_one_row_per_study (c : ctx) (w : world) :
  NoDup (m_study_id <$> metadata (db c)) →
  (∀ ta tb,
     (dissociate_by_terms ta tb c w).1 = Returns db_query_failed ∨
     ∃ rows,
       (dissociate_by_terms ta tb c w).1 =
         Returns (jsonify (PList (study_title_obj <$> rows))) ∧
       NoDup (st_study_id <$> rows)) ∧
  (∀ c1 c2,
     (dissociate_by_locations c1 c2 c w).1 = Raises bad_coords ∨
     (dissociate_by_locations c1 c2 c w).1 = Returns db_query_failed ∨
     ∃ coord rows,
       (dissociate_by_locations c1 c2 c w).1 =
         Returns (jsonify (PList (coord_study_title_obj coord <$> rows))) ∧
       NoDup (st_study_id <$> rows)).
Proof.
  intros Hkey. split.
  - intros ta tb. rewrite dissociate_by_terms_view.
    destruct (query_view_outcome (SelectDissociateTerms ta tb)
                (λ rows, PList (study_title_obj <$> rows)) c w) as [-> | ->];
      [by left|right].
    eexists. split; [reflexivity|]. by apply sorted_rows_key.
  - intros c1 c2. rewrite dissociate_by_locations_eq.
    destruct (parse_coords c1) as [[[x1 y1] z1]|]; [|by left].
    destruct (parse_coords c2) as [[[x2 y2] z2]|]; [|by left].
    right. rewrite dissociate_at_view.
    destruct (query_view_outcome (SelectDissociateLocations x1 y1 z1 x2 y2 z2)
                (λ rows, PList (coord_study_title_obj
                                  (PList [PFloat x1; PFloat y1; PFloat z1]) <$> rows)) c w)
      as [-> | ->]; [by left|right].
    do 2 eexists. split; [reflexivity|]. by apply sorted_rows_key.
Qed.

Lemma select_dissociate_terms_same d t : select_dissociate_terms d t t = [].
Proof.
  apply elem_of_nil_inv. intros r Hr.
  apply elem_of_select_dissociate_terms in Hr as ((a & Ha & Hid & Ht) & Hnb & _).
  by apply (Hnb a Ha Hid).
Qed.

Lemma select_dissociate_locations_same d x y z :
  select_dissociate_locations d x y z x y z = [].
Proof.
  apply elem_of_nil_inv. intros r Hr.
  apply elem_of_select_dissociate_locations in Hr as ((a & Ha & Hid & Ht) & Hnb & _).
  by rewrite (Hnb a Ha Hid) in Ht.
Qed.

(** X6.  Dissociating a term from itself, or a coordinate string from
    itself, never returns a study: the answer is the empty list (or the
    error, or the 400). *)
Theorem dissociate_from_itself_empty (c : ctx) (w : world) :
  (∀ t,
     (dissociate_by_terms t t c w).1 = Returns db_query_failed ∨
     (dissociate_by_terms t t c w).1 = Returns (jsonify (PList []))) ∧
  (∀ c1,
     (dissociate_by_locations c1 c1 c w).1 = Raises bad_coords ∨
     (dissociate_by_locations c1 c1 c w).1 = Returns db_query_failed ∨
     (dissociate_by_locations c1 c1 c w).1 = Returns (jsonify (PList []))).
Proof.
  split.
  - intros t. rewrite dissociate_by_terms_view.
    destruct (query_view_outcome (SelectDissociateTerms t t)
                (λ rows, PList (study_title_obj <$> rows)) c w) as [-> | ->];
      [by left|right].
    simpl. by rewrite select_dissociate_terms_same.
  - intros c1. rewrite dissociate_by_locations_eq.
    destruct (parse_coords c1) as [[[x1 y1] z1]|]; [|by left].
    right. rewrite dissociate_at_view.
    destruct (query_view_outcome (SelectDissociateLocations x1 y1 z1 x1 y1 z1)
                (λ rows, PList (coord_study_title_obj
                                  (PList [PFloat x1; PFloat y1; PFloat z1]) <$> rows)) c w)
      as [-> | ->]; [by left|right].
    simpl. by rewrite select_dissociate_locations_same.
Qed.

(** X7.  The studies of a dissociation are those of the first
    single-criterion statement that are not among those of the second and
    that have a metadata row: a study without metadata is listed by
    studies-by-term but never by a dissociation. *)
Theorem dissociation_is_difference (d : database) :
  (∀ ta tb s,
     s ∈ (st_study_id <$> select_dissociate_terms d ta tb) ↔
     s ∈ select_studies_by_term d ta ∧ (s ∉ select_studies_by_term d tb) ∧
     s ∈ (m_study_id <$> metadata d)) ∧
  (∀ x1 y1 z1 x2 y2 z2 s,
     s ∈ (st_study_id <$> select_dissociate_locations d x1 y1 z1 x2 y2 z2) ↔
     s ∈ select_studies_by_coordinates d x1 y1 z1 ∧
     (s ∉ select_studies_by_coordinates d x2 y2 z2) ∧
     s ∈ (m_study_id <$> metadata d)).
Proof.
  split.
  - intros ta tb s.
    rewrite list_elem_of_fmap, !elem_of_select_studies_by_term, list_elem_of_fmap.
    split.
    + intros (r & -> & Hr). apply elem_of_select_dissociate_terms in Hr
        as (Ha & Hnb & (m & Hm & Hid & _)).
      split; [done|]. split; [|eauto].
      intros (b & Hb & Hbid & Hbt). by apply (Hnb b Hb Hbid).
    + intros (Ha & Hnb & (m & -> & Hm)).
      exists {| st_study_id := m_study_id m; st_title := m_title m |}.
      split; [done|]. apply elem_of_select_dissociate_terms. simpl.
      split; [done|]. split; [|eauto].
      intros b Hb Hbid Hbt. apply Hnb. eauto.
  - intros x1 y1 z1 x2 y2 z2 s.
    rewrite list_elem_of_fmap, !elem_of_select_studies_by_coordinates, list_elem_of_fmap.
    split.
    + intros (r & -> & Hr). apply elem_of_select_dissociate_locations in Hr
        as (Ha & Hnb & (m & Hm & Hid & _)).
      split; [done|]. split; [|eauto].
      intros (b & Hb & Hbid & Hbt). by rewrite (Hnb b Hb Hbid) in Hbt.
    + intros (Ha & Hnb & (m & -> & Hm)).
      exists {| st_study_id := m_study_id m; st_title := m_title m |}.
      split; [done|]. apply elem_of_select_dissociate_locations. simpl.
      split; [done|]. split; [|eauto].
      intros b Hb Hbid. destruct (at_point x2 y2 z2 b) eqn:Hbt; [|done].
      destruct Hnb. eauto.
Qed.

Lemma engine_available_serve c w rs :
  engine_available c w → engine_available c (serve c w rs).2.
Proof.
  apply serve_preserves.
  - intros op f w0 _ _ Hw. exact Hw.
  - intros w0 p Hw. exact Hw.
  - intros w0 [[eng Hm]|Hf]; [|by right].
    rewrite (get_engine_memo _ _ _ Hm). left. by exists eng.
Qed.

Lemma query_view_reliable s shape c w :
  reliable c → engine_available c w →
  (query_view s shape c w).1 = Returns (jsonify (shape (run_stmt (db c) s))).
Proof.
  intros Hok Havail.
  by destruct (query_view_reaches s shape c w Hok Havail) as (w' & -> & _).
Qed.

Lemma query_view_succeeds s shape c w :
  reliable c → engine_available c w →
  ∃ resp, (query_view s shape c w).1 = Returns resp ∧ status resp = 200 ∧
          resp = jsonify (shape (run_stmt (db c) s)).
Proof.
  intros Hok Havail. rewrite (query_view_reliable s shape c w Hok Havail). eauto.
Qed.

(** X8.  When no call fails and a handle can be had, no query handler
    answers with the generic error, whatever requests were served before: a
    well-formed request gets status 200 and a list made of the elements of
    the complete answer on the snapshot, a malformed one the 400. *)
Theorem reliable_requests_succeed (c : ctx) (w : world) (rs : list request) (q : query) :
  reliable c → engine_available c w →
  let o := (query_handler q c (serve c w rs).2).1 in
  if well_formed q
  then ∃ resp objs objs',
         o = Returns resp ∧ status resp = 200 ∧
         content resp = JsonBody (PList objs) ∧
         full_answer (db c) q = Some (jsonify (PList objs')) ∧ objs ≡ₚ objs'
  else o = Raises bad_coords.
Proof.
  intros Hok Havail o. pose proof (engine_available_serve c w rs Havail) as Hw.
  subst o. destruct q as [term|coords|ta tb|c1 c2]; simpl.
  - rewrite get_studies_by_term_view.
    destruct (query_view_succeeds (SelectStudiesByTerm term)
                (λ rows, PList (PId <$> rows)) c _ Hok Hw) as (resp & -> & Hst & ->).
    by do 3 eexists.
  - rewrite get_studies_by_coordinates_eq.
    destruct (parse_coords coords) as [[[x y] z]|]; simpl; [|done].
    rewrite studies_at_view.
    destruct (query_view_succeeds (SelectStudiesByCoordinates x y z)
                (λ rows, PList (PId <$> rows)) c _ Hok Hw) as (resp & -> & Hst & ->).
    by do 3 eexists.
  - rewrite dissociate_by_terms_view.
    destruct (query_view_succeeds (SelectDissociateTerms ta tb)
                (λ rows, PList (study_title_obj <$> rows)) c _ Hok Hw)
      as (resp & -> & Hst & ->).
    by do 3 eexists.
  - rewrite dissociate_by_locations_eq.
    destruct (parse_coords c1) as [[[x1 y1] z1]|]; simpl; [|done].
    destruct (parse_coords c2) as [[[x2 y2] z2]|]; simpl; [|done].
    rewrite dissociate_at_view.
    destruct (query_view_succeeds (SelectDissociateLocations x1 y1 z1 x2 y2 z2)
                (λ rows, PList (coord_study_title_obj
                                  (PList [PFloat x1; PFloat y1; PFloat z1]) <$> rows))
                c _ Hok Hw) as (resp & -> & Hst & ->).
    by do 3 eexists.
Qed.

(** X9.  The provider raises only while no handle is memoized, and
    leaves the global unset: either the connection string is missing and only
    the environment was read, or the construction attempted on the rewritten
    string failed with that very exception.  No partial handle is kept. *)
Theorem provider_failure_leaves_unset (c : ctx) (w : world) (e : exn) (w' : world) :
  get_engine c w = (Raises e, w') →
  _engine w = None ∧ _engine w' = None ∧
  ((e = missing_db_url ∧ falsy (environ c !! "DB_URL") = true ∧
    calls_since w w' = [ {| call_op := Getenv "DB_URL"; call_exn := None |} ]) ∨
   ∃ url, environ c !! "DB_URL" = Some url ∧
     calls_since w w' =
       [ {| call_op := Getenv "DB_URL"; call_exn := None |};
         {| call_op := CreateEngine (normalize_url url) true; call_exn := Some e |} ]).
Proof.
  intros Hget. destruct (_engine w) as [eng|] eqn:Hm.
  { by rewrite (get_engine_memo _ _ _ Hm) in Hget. }
  split; [done|].
  destruct (falsy (environ c !! "DB_URL")) eqn:Hf.
  - rewrite get_engine_unconfigured in Hget by done. injection Hget as <- <-.
    split; [done|]. left. split; [done|]. split; [done|].
    by apply calls_since_app.
  - destruct (environ c !! "DB_URL") as [url|] eqn:Hurl; [|done].
    rewrite (get_engine_construct c w url) in Hget by (try done; by intros ->).
    simpl in Hget. destruct (faults _ _ _) as [e'|]; [|done].
    injection Hget as <- <-. split; [done|]. right. exists url. split; [done|].
    apply calls_since_app. simpl. by rewrite <- app_assoc.
Qed.

Lemma normalize_url_canonical u : startswith (normalize_url u) "postgres://" = false.
Proof.
  unfold normalize_url. destruct (startswith u "postgres://") eqn:Hu; [|done].
  unfold startswith. apply not_true_is_false. intros Hp.
  apply String.prefix_correct in Hp. simpl in Hp. discriminate.
Qed.

Lemma normalize_url_idempotent u : normalize_url (normalize_url u) = normalize_url u.
Proof.
  unfold normalize_url at 1. by rewrite normalize_url_canonical.
Qed.

(** X10.  The rewriting never leaves the deprecated prefix and rewriting
    twice changes nothing more; every handle a process holds was built from a
    string without the deprecated prefix, with pre-ping on. *)
Theorem handles_have_canonical_scheme :
  (∀ u, startswith (normalize_url u) "postgres://" = false) ∧
  (∀ u, normalize_url (normalize_url u) = normalize_url u) ∧
  (∀ c rs eng,
     _engine (serve c fresh rs).2 = Some eng →
     startswith (eng_url eng) "postgres://" = false ∧ eng_pool_pre_ping eng = true).
Proof.
  split; [apply normalize_url_canonical|]. split; [apply normalize_url_idempotent|].
  intros c rs.
  apply (serve_preserves c (λ w, ∀ eng, _engine w = Some eng →
           startswith (eng_url eng) "postgres://" = false ∧ eng_pool_pre_ping eng = true)).
  - intros op f w _ _ Hw. exact Hw.
  - intros w p Hw. exact Hw.
  - intros w Hw eng. destruct (_engine w) as [eng0|] eqn:Hm.
    { rewrite (get_engine_memo _ _ _ Hm). simpl. rewrite Hm. apply Hw. }
    destruct (falsy (environ c !! "DB_URL")) eqn:Hf.
    { rewrite get_engine_unconfigured by done. simpl. by rewrite Hm. }
    destruct (environ c !! "DB_URL") as [url|] eqn:Hurl; [|done].
    rewrite (get_engine_construct c w url) by (try done; by intros ->).
    simpl. destruct (faults _ _ _) as [e'|]; simpl; [by rewrite Hm|].
    intros [= <-]. simpl. split; [apply normalize_url_canonical|done].
  - done.
Qed.

Lemma str_split_nonempty sep s : str_split sep s ≠ [].
Proof.
  destruct s as [|ch s]; simpl; [done|].
  destruct (decide (ch = sep)); [done|]. by destruct (str_split sep s).
Qed.

Lemma str_join_split sep s : str_join sep (str_split sep s) = s.
Proof.
  induction s as [|ch s IH]; simpl; [done|].
  pose proof (str_split_nonempty sep s) as Hne.
  destruct (str_split sep s) as [|p l]; [done|].
  destruct (decide (ch = sep)) as [->|Hch].
  - by rewrite <- IH.
  - rewrite <- IH. by destruct l.
Qed.

Lemma str_split_free_pieces sep s :
  Forall (λ piece, str_contains sep piece = false) (str_split sep s).
Proof.
  induction s as [|ch s IH]; simpl; [by repeat constructor|].
  destruct (decide (ch = sep)) as [->|Hne]; [by constructor|].
  destruct (str_split sep s) as [|p l]; simpl.
  - repeat constructor. simpl. by rewrite bool_decide_eq_false_2.
  - apply Forall_cons in IH as [Hp Hl]. constructor; [|done].
    simpl. by rewrite bool_decide_eq_false_2.
Qed.

(** X11.  Joining the pieces of [split] with underscores gives the string
    back, and the strings the coordinate handlers accept are exactly
    [a_b_c] with three underscore-free components that [float] reads. *)
Theorem accepted_coordinate_strings (s : string) (x y z : float) :
  str_join "_" (str_split "_" s) = s ∧
  (parse_coords s = Some (x, y, z) ↔
   ∃ a b c0,
     s = underscored a b c0 ∧
     str_contains "_" a = false ∧ str_contains "_" b = false ∧
     str_contains "_" c0 = false ∧
     py_float a = Some x ∧ py_float b = Some y ∧ py_float c0 = Some z).
Proof.
  split; [apply str_join_split|]. split.
  - unfold parse_coords. intros Hp.
    pose proof (str_join_split "_" s) as Hjoin.
    pose proof (str_split_free_pieces "_" s) as Hfree.
    destruct (str_split "_" s) as [|a [|b [|c0 [|? ?]]]]; try done.
    apply Forall_cons in Hfree as [Ha Hfree]. apply Forall_cons in Hfree as [Hb Hfree].
    apply Forall_cons in Hfree as [Hc _].
    destruct (py_float a) as [x'|] eqn:Hx; [|done].
    destruct (py_float b) as [y'|] eqn:Hy; [|done].
    destruct (py_float c0) as [z'|] eqn:Hz; [|done].
    simpl in Hp. injection Hp as -> -> ->.
    exists a, b, c0. by rewrite <- Hjoin.
  - intros (a & b & c0 & -> & Ha & Hb & Hc & Hx & Hy & Hz).
    by apply parse_coords_underscored.
Qed.

Lemma query_view_protocol s shape c w :
  follows_protocol Fresh (calls_since w (query_view s shape c w).2) = true.
Proof.
  unfold_M. destruct (_engine w) eqn:Hm; [|destruct (falsy _)].
  all: case_faults; simpl; calls; by destruct s.
Qed.

Lemma follows_protocol_configuration ks0 ks :
  Forall (λ k, is_getenv (call_op k) || is_create_engine (call_op k) = true) ks0 →
  follows_protocol Fresh (ks0 ++ ks) = follows_protocol Fresh ks.
Proof.
  induction 1 as [|k ks0 Hk _ IH]; simpl; [done|].
  unfold conn_step. by destruct (call_op k).
Qed.

Lemma get_engine_configuration_calls c w :
  ∃ ks0, trace (get_engine c w).2 = trace w ++ ks0 ∧
    Forall (λ k, is_getenv (call_op k) || is_create_engine (call_op k) = true) ks0.
Proof.
  unfold_M. destruct (_engine w) eqn:Hm; [|destruct (falsy _); [|case_faults]]; simpl.
  - exists []. by rewrite app_nil_r.
  - eexists. split; [reflexivity|]. by repeat constructor.
  - eexists. split; [by rewrite <- app_assoc|]. by repeat constructor.
  - eexists. split; [by rewrite <- app_assoc|]. by repeat constructor.
Qed.

Lemma test_db_protocol c w eng w1 :
  get_engine c w = (Returns eng, w1) →
  post test_db c w (λ o w', ∃ ks,
    trace w' = trace w1 ++ ks ∧ follows_protocol Fresh ks = true).
Proof.
  intros Hget. unfold test_db. apply (post_after _ _ _ _ _ _ _ Hget).
  unfold with_begin, with_connect, sample_block.
  wp.
  all: cbv beta iota.
  all: eexists; (split; [cbn; rewrite <- ?app_assoc; reflexivity|]); reflexivity.
Qed.

(** X12.  Every request keeps its calls in order, whatever fails: the
    environment and [create_engine] come before the connection, a connection
    is asked for at most once, statements run on an open connection only, a
    [SELECT] only after the search path was set, and an opened connection is
    closed before the request ends. *)
Theorem requests_follow_connection_protocol (c : ctx) (w : world) (r : request) :
  follows_protocol Fresh (calls_since w (view r c w).2) = true.
Proof.
  destruct r as [[term|coords|ta tb|c1 c2]|]; simpl.
  - apply (query_view_protocol (SelectStudiesByTerm term)).
  - rewrite get_studies_by_coordinates_eq.
    destruct (parse_coords coords) as [[[x y] z]|].
    + apply (query_view_protocol (SelectStudiesByCoordinates x y z)).
    + simpl. by rewrite calls_since_same.
  - apply (query_view_protocol (SelectDissociateTerms ta tb)).
  - rewrite dissociate_by_locations_eq.
    destruct (parse_coords c1) as [[[x1 y1] z1]|];
      [destruct (parse_coords c2) as [[[x2 y2] z2]|]|].
    + apply (query_view_protocol (SelectDissociateLocations x1 y1 z1 x2 y2 z2)).
    + simpl. by rewrite calls_since_same.
    + simpl. by rewrite calls_since_same.
  - destruct (get_engine_configuration_calls c w) as (ks0 & Hks0 & Hconf).
    destruct (get_engine c w) as [[eng|e] w1] eqn:Hget; simpl in Hks0.
    + pose proof (test_db_protocol c w eng w1 Hget) as Hpost. unfold post in Hpost.
      destruct Hpost as (ks & Hks & Hok).
      rewrite (calls_since_app w _ (ks0 ++ ks)) by (by rewrite Hks, Hks0, app_assoc).
      by rewrite follows_protocol_configuration.
    + rewrite (test_db_raises c w e w1 Hget). simpl.
      rewrite (calls_since_app w _ (ks0 ++ [])) by (by rewrite app_nil_r).
      by rewrite follows_protocol_configuration.
Qed.

Ltac lookup :=
  repeat (rewrite lookup_insert_ne by discriminate);
  first [by rewrite lookup_insert_eq | by rewrite lookup_singleton_eq].

Lemma select_sample_length d tbl :
  List.length (select_sample d tbl) =
  (sample_limit tbl `min` Z.to_nat (select_count d tbl))%nat.
Proof.
  destruct tbl; simpl; rewrite length_fmap, length_take, Nat2Z.id; done.
Qed.

Lemma select_sample_bound d tbl :
  (List.length (select_sample d tbl) ≤ sample_limit tbl)%nat.
Proof. rewrite select_sample_length. lia. Qed.

Lemma test_db_fields c w eng w1 :
  get_engine c w = (Returns eng, w1) →
  post test_db c w (λ o w', ∃ resp p,
    o = Returns resp ∧ content resp = JsonBody (PDict p) ∧
    p !! "dialect" = Some (PStr (dialect_name eng)) ∧
    (status resp = 200 →
     p !! "version" = Some (PStr (server_version (db c))) ∧
     ∀ tbl, p !! count_key tbl = Some (PInt (select_count (db c) tbl)) ∧
            ∃ rows, p !! sample_key tbl = Some (PList rows) ∧
                    (List.length rows ≤ sample_limit tbl)%nat)).
Proof.
  intros Hget. unfold test_db. apply (post_after _ _ _ _ _ _ _ Hget).
  unfold with_begin, with_connect, sample_block.
  wp.
  all: cbv beta iota.
  all: do 2 eexists; (split; [reflexivity|]); (split; [reflexivity|]).
  all: cbn [sample_key count_key].
  all: split; [lookup|].
  all: cbn [status with_status]; try (intros [=]; fail).
  all: intros _; split; [lookup|].
  all: intros []; cbn [sample_key count_key].
  all: split; [lookup|].
  all: eexists; split; [lookup|].
  all: first [ cbn [List.length sample_limit]; lia
             | rewrite length_fmap; cbn [run_stmt]; apply select_sample_bound ].
Qed.

(** X13.  Whenever the provider hands a handle the diagnostics handler
    returns a payload that names the dialect of that handle, error or not; at
    status 200 it also carries the server version, the three counts equal to
    the sizes of the tables, and three samples of at most 3, 3 and 20
    rows. *)
Theorem test_db_payload_fields (c : ctx) (w : world) (eng : engine) (w1 : world) :
  get_engine c w = (Returns eng, w1) →
  ∃ resp w' p,
    test_db c w = (Returns resp, w') ∧ content resp = JsonBody (PDict p) ∧
    p !! "dialect" = Some (PStr (dialect_name eng)) ∧
    (status resp = 200 →
     p !! "version" = Some (PStr (server_version (db c))) ∧
     ∀ tbl, p !! count_key tbl = Some (PInt (select_count (db c) tbl)) ∧
            ∃ rows, p !! sample_key tbl = Some (PList rows) ∧
                    (List.length rows ≤ sample_limit tbl)%nat).
Proof.
  intros Hget. pose proof (test_db_fields c w eng w1 Hget) as Hpost.
  unfold post in Hpost. destruct (test_db c w) as [o w']. simpl in Hpost.
  destruct Hpost as (resp & p & -> & Hrest). by exists resp, w', p.
Qed.

Ltac prefixes := repeat first [apply prefix_nil | apply prefix_cons].

Lemma query_view_script s shape c w :
  executed (calls_since w (query_view s shape c w).2) `prefix_of` [SetSearchPath; s].
Proof.
  unfold_M. destruct (_engine w) eqn:Hm; [|destruct (falsy _)].
  all: case_faults; simpl; calls; cbn; prefixes.
Qed.

Lemma query_view_script_reliable s shape c w :
  reliable c → engine_available c w →
  executed (calls_since w (query_view s shape c w).2) = [SetSearchPath; s].
Proof.
  intros Hok Havail. unfold_M.
  destruct (_engine w) as [eng|] eqn:Hm.
  - repeat (rewrite Hok; simpl). by calls.
  - assert (falsy (environ c !! "DB_URL") = false) as ->.
    { destruct Havail as [[eng Heng]|Hf]; [congruence|done]. }
    repeat (rewrite Hok; simpl). by calls.
Qed.

Lemma executed_configuration ks0 ks :
  Forall (λ k, is_getenv (call_op k) || is_create_engine (call_op k) = true) ks0 →
  executed (ks0 ++ ks) = executed ks.
Proof.
  induction 1 as [|k ks0 Hk _ IH]; simpl; [done|].
  unfold executed in *. simpl. by destruct (call_op k).
Qed.

Lemma test_db_script_prefix c w eng w1 :
  get_engine c w = (Returns eng, w1) →
  post test_db c w (λ o w', ∃ ks,
    trace w' = trace w1 ++ ks ∧ executed ks `prefix_of` test_db_script).
Proof.
  intros Hget. unfold test_db. apply (post_after _ _ _ _ _ _ _ Hget).
  unfold with_begin, with_connect, sample_block.
  wp.
  all: cbv beta iota.
  all: eexists; (split; [cbn; rewrite <- ?app_assoc; reflexivity|]).
  all: cbn; unfold test_db_script; prefixes.
Qed.

Lemma post_perform_reliable op c w Q :
  reliable c → Q (Returns ()) (record op None w) → post (perform op) c w Q.
Proof. intros Hok HQ. unfold post, perform. rewrite !Hok. exact HQ. Qed.

Lemma post_execute_reliable s c w Q :
  reliable c → Q (Returns (run_stmt (db c) s)) (record (Execute s) None w) →
  post (execute s) c w Q.
Proof.
  intros Hok HQ. unfold post, execute, perform, mbind, M_bind. rewrite !Hok. exact HQ.
Qed.

Lemma test_db_script_reliable c w eng w1 :
  reliable c → get_engine c w = (Returns eng, w1) →
  post test_db c w (λ o w', ∃ ks,
    trace w' = trace w1 ++ ks ∧ executed ks = test_db_script).
Proof.
  intros Hok Hget. unfold test_db. apply (post_after _ _ _ _ _ _ _ Hget).
  unfold with_begin, with_connect, sample_block.
  repeat (cbv beta iota;
          lazymatch goal with
          | |- post (perform ?op) _ _ _ => apply (post_perform_reliable op _ _ _ Hok)
          | |- post (execute ?s) _ _ _ => apply (post_execute_reliable s _ _ _ Hok)
          | |- _ => wp_step
          end; unfold record; cbn [_engine trace payload]).
  cbv beta iota.
  eexists. split; [cbn; rewrite <- ?app_assoc; reflexivity|]. reflexivity.
Qed.

Lemma get_engine_available c w :
  reliable c → engine_available c w → ∃ eng w1, get_engine c w = (Returns eng, w1).
Proof.
  intros Hok Havail. destruct (_engine w) as [eng|] eqn:Hm.
  { rewrite (get_engine_memo _ _ _ Hm). eauto. }
  destruct Havail as [[eng Heng]|Hf]; [congruence|].
  destruct (environ c !! "DB_URL") as [url|] eqn:Hurl; [|done].
  rewrite (get_engine_construct c w url) by (try done; by intros ->).
  simpl. rewrite Hok. eauto.
Qed.

(** X14.  The statements a request sends are an initial part of its
    script, with the path parameters bound, in source order; when no call
    fails and a handle can be had they are the whole script. *)
Theorem requests_run_their_script (c : ctx) (w : world) (r : request) :
  executed (calls_since w (view r c w).2) `prefix_of` script r ∧
  (reliable c → engine_available c w →
   executed (calls_since w (view r c w).2) = script r).
Proof.
  destruct r as [[term|coords|ta tb|c1 c2]|]; simpl.
  - split; [apply (query_view_script (SelectStudiesByTerm term))
           |apply (query_view_script_reliable (SelectStudiesByTerm term))].
  - rewrite get_studies_by_coordinates_eq.
    destruct (parse_coords coords) as [[[x y] z]|].
    + split; [apply (query_view_script (SelectStudiesByCoordinates x y z))
             |apply (query_view_script_reliable (SelectStudiesByCoordinates x y z))].
    + simpl. by rewrite calls_since_same.
  - split; [apply (query_view_script (SelectDissociateTerms ta tb))
           |apply (query_view_script_reliable (SelectDissociateTerms ta tb))].
  - rewrite dissociate_by_locations_eq.
    destruct (parse_coords c1) as [[[x1 y1] z1]|];
      [destruct (parse_coords c2) as [[[x2 y2] z2]|]|].
    + split;
        [apply (query_view_script (SelectDissociateLocations x1 y1 z1 x2 y2 z2))
        |apply (query_view_script_reliable (SelectDissociateLocations x1 y1 z1 x2 y2 z2))].
    + simpl. by rewrite calls_since_same.
    + simpl. by rewrite calls_since_same.
  - destruct (get_engine_configuration_calls c w) as (ks0 & Hks0 & Hconf).
    split.
    + destruct (get_engine c w) as [[eng|e] w1] eqn:Hget; simpl in Hks0.
      * pose proof (test_db_script_prefix c w eng w1 Hget) as Hpost. unfold post in Hpost.
        destruct Hpost as (ks & Hks & Hpre).
        rewrite (calls_since_app w _ (ks0 ++ ks)) by (by rewrite Hks, Hks0, app_assoc).
        by rewrite executed_configuration.
      * rewrite (test_db_raises c w e w1 Hget). simpl.
        rewrite (calls_since_app w _ (ks0 ++ [])) by (by rewrite app_nil_r).
        rewrite executed_configuration by done. apply prefix_nil.
    + intros Hok Havail.
      destruct (get_engine_available c w Hok Havail) as (eng & w1 & Hget).
      rewrite Hget in Hks0. simpl in Hks0.
      pose proof (test_db_script_reliable c w eng w1 Hok Hget) as Hpost.
      unfold post in Hpost. destruct Hpost as (ks & Hks & Heq).
      rewrite (calls_since_app w _ (ks0 ++ ks)) by (by rewrite Hks, Hks0, app_assoc).
      by rewrite executed_configuration.
Qed.

End Proofs.

(** * The model at work on the sample platform *)

#[local] Existing Instance exact_platform.
Import Sample.

(** [GET /terms/pain/studies] lists the two studies annotated with the term,
    in ascending order. *)
Example terms_pain_studies :
  (get_studies_by_term "pain" (configured no_faults) fresh).1 =
  Returns (jsonify (PList [PId 1001%N; PId 1002%N])).
Proof. reflexivity. Qed.

(** [GET /locations/0_-52_26/studies] reads [0], [-52] and [26]. *)
Example locations_parse :
  parse_coords "0_-52_26" = Some (dec false 0, dec true 52, dec false 26).
Proof. reflexivity. Qed.

(** [GET /locations/bad_coord/studies] is a 400 and touches nothing. *)
Example locations_bad_coord :
  get_studies_by_coordinates "bad_coord" (configured no_faults) fresh =
  (Raises bad_coords, fresh).
Proof. reflexivity. Qed.

(** [GET /dissociate/terms/pain/touch] keeps the study annotated with the
    first term only. *)
Example dissociate_pain_touch :
  (dissociate_by_terms "pain" "touch" (configured no_faults) fresh).1 =
  Returns (jsonify (PList [study_title_obj {| st_study_id := 1001%N; st_title := "Pain" |}])).
Proof. reflexivity. Qed.

(** With the database out of reach [GET /terms/pain/studies] is the generic
    error. *)
Example terms_pain_unreachable :
  (get_studies_by_term "pain" unreachable fresh).1 = Returns db_query_failed.
Proof. reflexivity. Qed.

(** The stored point of study 1001 is [(-0.0, -52, 26)]; the answer to
    [GET /dissociate/locations/0_-52_26/1_2_3] carries the requested
    [(0, -52, 26)]. *)
Example dissociate_locations_echo :
  (dissociate_by_locations "0_-52_26" "1_2_3" (configured no_faults) fresh).1 =
  Returns (jsonify (PList [
    coord_study_title_obj
      (PList [PFloat (dec false 0); PFloat (dec true 52); PFloat (dec false 26)])
      {| st_study_id := 1001%N; st_title := "Pain" |} ])) ∧
  c_x <$> filter (λ r, c_study_id r = 1001%N) (coordinates data) = [dec true 0].
Proof. split; reflexivity. Qed.

(** When the three sample statements fail the diagnostics are still served,
    with empty samples. *)
Example test_db_samples_fail :
  let resp := render (test_db samples_fail fresh).1 in
  status resp = 200 ∧ field "ok" resp = Some (PBool true) ∧
  field "error" resp = None ∧
  field "metadata_count" resp = Some (PInt 3) ∧
  field "coordinates_sample" resp = Some (PList []) ∧
  field "metadata_sample" resp = Some (PList []) ∧
  field "annotations_terms_sample" resp = Some (PList []).
Proof. repeat split; reflexivity. Qed.

(** When a count fails the diagnostics are an error. *)
Example test_db_count_fails :
  let resp := render (test_db count_fails fresh).1 in
  status resp = 500 ∧ field "ok" resp = Some (PBool false) ∧
  field "error" resp = Some (PStr "db query failed") ∧
  field "metadata_count" resp = None.
Proof. repeat split; reflexivity. Qed.

(** The first call in a configured process builds [first_engine]. *)
Example first_call :
  get_engine (configured no_faults) fresh = (Returns first_engine, first_world).
Proof. reflexivity. Qed.

(** On the sample platform: a well-formed string reaches the query block, a
    malformed one does not, and the statement is executed with the values
    read. *)
Lemma coordinates_validation_witness :
  get_studies_by_coordinates "0_-52_26" (configured no_faults) fresh =
    studies_at (dec false 0) (dec true 52) (dec false 26) (configured no_faults) fresh ∧
  dissociate_by_locations "0_-52_26" "1_2" (configured no_faults) fresh =
    (Raises bad_coords, fresh) ∧
  {| call_op := Execute (SelectStudiesByCoordinates (dec false 0) (dec true 52) (dec false 26));
     call_exn := None |}
    ∈ calls_since fresh
        (studies_at (dec false 0) (dec true 52) (dec false 26) (configured no_faults) fresh).2.
Proof.
  destruct (coordinates_validation (configured no_faults) fresh)
    as (Hstudies & Hdissociate & _ & Hreach).
  split; [exact (Hstudies "0_-52_26")|]. split; [exact (Hdissociate "0_-52_26" "1_2")|].
  apply Hreach.
  - intros history op. reflexivity.
  - right. reflexivity.
Defined.

(** In a process where the handle cannot be constructed, two requests apply
    the rewriting twice. *)
Lemma rewrite_applied_twice :
  constructions
    (serve no_driver fresh [Query (TermsStudies "pain"); Query (TermsStudies "pain")]).2 =
  [ {| call_op := CreateEngine "postgresql://user@host/ns" true;
       call_exn := Some (SQLAlchemyError "connection refused") |};
    {| call_op := CreateEngine "postgresql://user@host/ns" true;
       call_exn := Some (SQLAlchemyError "connection refused") |} ] ∧
  length (constructions
    (serve no_driver fresh [Query (TermsStudies "pain"); Query (TermsStudies "pain")]).2) = 2.
Proof. split; reflexivity. Qed.

(** On the sample platform: the configured string is rewritten, the handle
    built from it, and after three requests the only construction is the
    one that succeeded. *)
Lemma url_rewritten_per_construction_witness :
  normalize_url "postgres://user@host/ns" = "postgresql://user@host/ns" ∧
  normalize_url "sqlite:///ns.db" = "sqlite:///ns.db" ∧
  eng_url first_engine = normalize_url "postgres://user@host/ns" ∧
  constructed_once
    (serve (configured no_faults) fresh
       [TestDb; Query (TermsStudies "pain"); Query (LocationsStudies "1_2_3")]).2.
Proof.
  destruct url_rewritten_per_construction as (Hprefix & Hother & Hbuilt & Honce).
  split; [exact (Hprefix "user@host/ns")|].
  split; [apply Hother; reflexivity|].
  split; [|apply Honce].
  apply (Hbuilt (configured no_faults) fresh "postgres://user@host/ns"
           first_engine first_world); reflexivity.
Defined.

(** On the sample platform: after the first call the handle stays, even if
    the configuration disappears. *)
Lemma engine_memoized_witness :
  get_engine (configured no_faults) fresh = (Returns first_engine, first_world) ∧
  _engine first_world = Some first_engine ∧
  let w' := (serve unconfigured first_world [TestDb; Query (TermsStudies "pain")]).2 in
  memoized first_engine first_world w' ∧
  get_engine unconfigured w' = (Returns first_engine, w').
Proof.
  assert (get_engine (configured no_faults) fresh = (Returns first_engine, first_world))
    as Hget by reflexivity.
  split; [exact Hget|].
  destruct (engine_memoized (configured no_faults) fresh first_engine first_world Hget)
    as [Hm Hkeep].
  split; [exact Hm|]. apply Hkeep.
Defined.

(** On the sample platform: exponent, infinity and padded forms are read
    and reach the query block. *)
Lemma float_forms_pass_validation_witness :
  parse_coords "1e5_-inf_ 2.5 " =
    Some (LitDec false 1 5, LitInf true, LitDec false 25 (-1)) ∧
  get_studies_by_coordinates "1e5_-inf_ 2.5 " (configured no_faults) fresh =
    studies_at (LitDec false 1 5) (LitInf true) (LitDec false 25 (-1))
      (configured no_faults) fresh.
Proof.
  destruct float_forms_pass_validation as (Hany & _).
  destruct (Hany "1e5" "-inf" " 2.5 " (LitDec false 1 5) (LitInf true)
              (LitDec false 25 (-1)) (configured no_faults) fresh)
    as (Hparse & Hstudies & _); try reflexivity.
  split; [exact Hparse|exact Hstudies].
Defined.

(** On the sample platform without [DB_URL]: after two requests a query is
    answered with the generic error and the diagnostics raise. *)
Lemma missing_configuration_witness :
  falsy (environ unconfigured !! "DB_URL") = true ∧
  let w := (serve unconfigured fresh [TestDb; Query (TermsStudies "pain")]).2 in
  query_handler (TermsStudies "pain") unconfigured w =
    (Returns db_query_failed, record (Getenv "DB_URL") None w) ∧
  query_handler (LocationsStudies "bad_coord") unconfigured w = (Raises bad_coords, w) ∧
  test_db unconfigured w = (Raises missing_db_url, record (Getenv "DB_URL") None w).
Proof.
  assert (falsy (environ unconfigured !! "DB_URL") = true) as Hf by reflexivity.
  split; [exact Hf|].
  destruct (missing_configuration unconfigured [TestDb; Query (TermsStudies "pain")] Hf)
    as (_ & Hquery & Hdiag & _).
  split; [exact (Hquery (TermsStudies "pain"))|].
  split; [exact (Hquery (LocationsStudies "bad_coord"))|exact Hdiag].
Defined.

(** The checker of the connection protocol refuses a [SELECT] sent before
    the search path is set, and a connection left open. *)
Example protocol_refuses :
  follows_protocol Fresh
    [ {| call_op := Connect first_engine; call_exn := None |};
      {| call_op := Execute (SelectStudiesByTerm "pain"); call_exn := None |};
      {| call_op := Close; call_exn := None |} ] = false ∧
  follows_protocol Fresh
    [ {| call_op := Connect first_engine; call_exn := None |};
      {| call_op := Execute SetSearchPath; call_exn := None |} ] = false.
Proof. split; reflexivity. Qed.

(** The sample metadata has one row per study, and the dissociation of
    [pain] from [touch] lists each study once. *)
Lemma dissociations_one_row_per_study_witness :
  NoDup (m_study_id <$> metadata (db (configured no_faults))) ∧
  ∃ rows,
    (dissociate_by_terms "pain" "touch" (configured no_faults) fresh).1 =
      Returns (jsonify (PList (study_title_obj <$> rows))) ∧
    NoDup (st_study_id <$> rows).
Proof.
  assert (NoDup (m_study_id <$> metadata (db (configured no_faults)))) as Hkey.
  { apply (bool_decide_unpack _). reflexivity. }
  split; [exact Hkey|].
  destruct (dissociations_one_row_per_study (configured no_faults) fresh Hkey)
    as [Hterms _].
  destruct (Hterms "pain" "touch") as [Herr|Hrows]; [discriminate Herr|exact Hrows].
Defined.

(** On the sample platform a request served after others still gets its
    answer at status 200. *)
Lemma reliable_requests_succeed_witness :
  reliable (configured no_faults) ∧ engine_available (configured no_faults) fresh ∧
  ∃ resp objs objs',
    (query_handler (TermsStudies "pain") (configured no_faults)
       (serve (configured no_faults) fresh [Query (TermsStudies "pain"); TestDb]).2).1 =
      Returns resp ∧
    status resp = 200 ∧ content resp = JsonBody (PList objs) ∧
    full_answer (db (configured no_faults)) (TermsStudies "pain") =
      Some (jsonify (PList objs')) ∧
    objs ≡ₚ objs'.
Proof.
  assert (reliable (configured no_faults)) as Hok by (intros history op; reflexivity).
  assert (engine_available (configured no_faults) fresh) as Havail by (right; reflexivity).
  split; [exact Hok|]. split; [exact Havail|].
  exact (reliable_requests_succeed (configured no_faults) fresh
           [Query (TermsStudies "pain"); TestDb] (TermsStudies "pain") Hok Havail).
Defined.

(** Without a driver the provider raises and keeps nothing. *)
Lemma provider_failure_leaves_unset_witness :
  get_engine no_driver fresh =
    (Raises (SQLAlchemyError "connection refused"), (get_engine no_driver fresh).2) ∧
  _engine (get_engine no_driver fresh).2 = None.
Proof.
  assert (get_engine no_driver fresh =
            (Raises (SQLAlchemyError "connection refused"), (get_engine no_driver fresh).2))
    as Hget by reflexivity.
  split; [exact Hget|].
  destruct (provider_failure_leaves_unset no_driver fresh _ _ Hget) as (_ & Hunset & _).
  exact Hunset.
Defined.

(** The handle of the sample process has the canonical scheme. *)
Lemma handles_have_canonical_scheme_witness :
  _engine (serve (configured no_faults) fresh [TestDb]).2 = Some first_engine ∧
  startswith (eng_url first_engine) "postgres://" = false ∧
  eng_pool_pre_ping first_engine = true.
Proof.
  assert (_engine (serve (configured no_faults) fresh [TestDb]).2 = Some first_engine)
    as Hheld by reflexivity.
  split; [exact Hheld|].
  destruct handles_have_canonical_scheme as (_ & _ & Hheld_ok).
  exact (Hheld_ok (configured no_faults) [TestDb] first_engine Hheld).
Defined.

(** The diagnostics of the sample process name the dialect of the rewritten
    URL. *)
Lemma test_db_payload_fields_witness :
  get_engine (configured no_faults) fresh = (Returns first_engine, first_world) ∧
  dialect_name first_engine = "postgresql" ∧
  ∃ resp w' p,
    test_db (configured no_faults) fresh = (Returns resp, w') ∧
    content resp = JsonBody (PDict p) ∧
    p !! "dialect" = Some (PStr (dialect_name first_engine)).
Proof.
  assert (get_engine (configured no_faults) fresh = (Returns first_engine, first_world))
    as Hget by reflexivity.
  split; [exact Hget|]. split; [reflexivity|].
  destruct (test_db_payload_fields (configured no_faults) fresh first_engine first_world Hget)
    as (resp & w' & p & Hrun & Hbody & Hdialect & _).
  exists resp, w', p. split; [exact Hrun|]. split; [exact Hbody|exact Hdialect].
Defined.

(** On the sample platform the diagnostics send their eight statements. *)
Lemma requests_run_their_script_witness :
  executed (calls_since fresh (view TestDb (configured no_faults) fresh).2) =
  test_db_script.
Proof.
  destruct (requests_run_their_script (configured no_faults) fresh TestDb) as [_ Hall].
  apply Hall.
  - intros history op. reflexivity.
  - right. reflexivity.
Defined.
